(** * Environmental test-data generator and task verifiers

    Shallow embedding of [generate_experimental_data.py], [verify_tasks.py]
    and [scripts/verify-task-answers.py].

    Numbers.  Python floats are modelled by rationals ([Q]): the
    arithmetic of the scripts is taken exactly, without the rounding of
    binary64; a not-a-number result is [None] in [option Q].  Python
    [int]s are [Z].

    NumPy.  The scripts draw all their randomness from NumPy's global
    [RandomState] and use the sine and the square root; the first
    verifier ranks the variances that [Series.var()] returns, which
    pandas computes with NumPy, rounded in binary64.  These live outside
    the repository; they are the fields of the class [NumPy] below.  The
    generator and the verifiers are written once, over any instance of
    that class, and what holds whatever is drawn, and however the
    variance is rounded, is proved at that level.

    The run.  The instance [numpy_legacy] is NumPy's legacy stream: the
    Mersenne Twister seeded with 42, bit for bit, with [log], [sqrt] and
    [sin] evaluated in fixed point, and the sample variance taken
    exactly.  The statements about the data of the run are evaluated on
    it.

    Files.  The verifiers work on tables, the parsed content of the CSV
    files; the text of the files, as the generator writes it and the
    verifier parses it, is modelled beside them. *)

From Stdlib Require Import Ascii String.
From Stdlib Require Import ZArith QArith Qround Qminmax Qabs List Bool Lia Lqa.
Import ListNotations.

Open Scope Q_scope.

(** ** Python built-ins *)

Definition Qlt_bool (x y : Q) : bool := negb (Qle_bool y x).

(** [max(a, b)]: the first argument is kept unless the second is
    strictly greater. *)
Definition py_max (a b : Q) : Q := if Qlt_bool a b then b else a.

(** [min(a, b)]: the first argument is kept unless the second is
    strictly smaller. *)
Definition py_min (a b : Q) : Q := if Qlt_bool b a then b else a.

(** [int(x)] on a float: truncation towards zero. *)
Definition py_int (x : Q) : Z := Z.quot (Qnum x) (Zpos (Qden x)).

(** [x in xs] for a list of integers. *)
Definition py_in (x : Z) (xs : list Z) : bool := existsb (Z.eqb x) xs.

(** ** Calendar dates ([datetime]) *)

Record datetime : Type := mk_datetime { year : Z; month : Z; day : Z }.

Definition is_leap (y : Z) : bool :=
  ((y mod 4 =? 0) && (negb (y mod 100 =? 0) || (y mod 400 =? 0)))%Z.

Definition days_in_month (y m : Z) : Z :=
  (if m =? 2 then (if is_leap y then 29 else 28)
   else if (m =? 4) || (m =? 6) || (m =? 9) || (m =? 11) then 30
   else 31)%Z.

(** One step of [+ timedelta(days=1)]. *)
Definition next_day (d : datetime) : datetime :=
  (if day d <? days_in_month (year d) (month d)
   then mk_datetime (year d) (month d) (day d + 1)
   else if month d <? 12
        then mk_datetime (year d) (month d + 1) 1
        else mk_datetime (year d + 1) 1 1)%Z.

(** [d + timedelta(days=n)] *)
Fixpoint add_days (d : datetime) (n : nat) : datetime :=
  match n with
  | O => d
  | S n' => add_days (next_day d) n'
  end.

Fixpoint days_before_month_aux (y : Z) (m : nat) : Z :=
  match m with
  | O => 0%Z
  | S m' => (days_before_month_aux y m' + days_in_month y (Z.of_nat m))%Z
  end.

(** Number of days of year [y] preceding the first day of month [m]. *)
Definition days_before_month (y m : Z) : Z :=
  days_before_month_aux y (Z.to_nat (m - 1)).

Definition days_before_year (y : Z) : Z :=
  (let y1 := y - 1 in y1 * 365 + y1 / 4 - y1 / 100 + y1 / 400)%Z.

Definition toordinal (d : datetime) : Z :=
  (days_before_year (year d) + days_before_month (year d) (month d) + day d)%Z.

(** [(a - b).days] *)
Definition days_between (a b : datetime) : Z := (toordinal a - toordinal b)%Z.

(** ** The NumPy interface *)

Class NumPy : Type := {
  (** state of the global [RandomState] *)
  rng : Type;
  (** [np.random.seed(n)]: the state it installs *)
  np_seed : Z -> rng;
  (** [np.random.random()]: a float of the half-open interval [0, 1) *)
  random_sample : rng -> Q * rng;
  (** a standard normal deviate *)
  standard_normal : rng -> Q * rng;
  (** a standard exponential deviate *)
  standard_exponential : rng -> Q * rng;
  (** [np.sin] *)
  np_sin : Q -> Q;
  (** the square root of the C library *)
  np_sqrt : Q -> Q;
  (** [Series.var()] on the values of a Series, as the library rounds
      it; a not-a-number result is [None] *)
  series_var : list Q -> option Q
}.

(** What the generator relies on: [np.random.random()] lies in the
    half-open interval [0, 1). *)
Class NumPyLaws (np : NumPy) : Prop := {
  random_sample_range :
    forall s, 0 <= fst (random_sample s) /\ fst (random_sample s) < 1
}.

(** ** Computations over the global random state *)

Section RandomMonad.

Context {np : NumPy}.

Definition M (A : Type) : Type := rng -> A * rng.

Definition ret {A} (a : A) : M A := fun s => (a, s).

Definition bind {A B} (m : M A) (k : A -> M B) : M B :=
  fun s => let (a, s') := m s in k a s'.

(** [np.random.normal(loc, scale)] *)
Definition np_random_normal (loc scale : Q) : M Q :=
  fun s => let (z, s') := standard_normal s in (loc + scale * z, s').

(** [np.random.uniform(low, high)] *)
Definition np_random_uniform (low high : Q) : M Q :=
  fun s => let (u, s') := random_sample s in (low + (high - low) * u, s').

(** [np.random.exponential(scale)] *)
Definition np_random_exponential (scale : Q) : M Q :=
  fun s => let (e, s') := standard_exponential s in (scale * e, s').

(** [np.random.random()] *)
Definition np_random_random : M Q := random_sample.

(** [out = []; for i, x in enumerate(xs): out.append(body(i, x))],
    the index starting at [i0]. *)
Fixpoint for_enumerate {A B} (body : nat -> A -> M B) (i0 : nat)
    (xs : list A) : M (list B) :=
  match xs with
  | [] => ret []
  | x :: xs' =>
      bind (body i0 x) (fun y =>
      bind (for_enumerate body (S i0) xs') (fun ys =>
      ret (y :: ys)))
  end.

End RandomMonad.

Notation "x <- m ;; k" := (bind m (fun x => k))
  (at level 61, m at next level, right associativity).

(** ** The generator: [generate_experimental_data.py] *)

Section Generator.

Context {np : NumPy}.

Definition start_date : datetime := mk_datetime 2023 1 1.

(** [dates = [start_date + timedelta(days=i) for i in range(100)]] *)
Definition dates : list datetime := map (add_days start_date) (seq 0 100).

Definition float_of_nat (i : nat) : Q := inject_Z (Z.of_nat i).

(** Body of the temperature loop. *)
Definition temperature_body (i : nat) (date : datetime) : M Q :=
  let month := month date in
  temp <-
    (if (month =? 1)%Z then
       let base := 5 + (float_of_nat i / 31) * 5 in
       z <- np_random_normal 0 1.5 ;; ret (base + z)
     else if (month =? 2)%Z then
       let day_in_feb := days_between date (mk_datetime 2023 2 1) in
       let base := 10 + (inject_Z day_in_feb / 28) * 5 in
       z <- np_random_normal 0 1.8 ;; ret (base + z)
     else if (month =? 3)%Z then
       let day_in_mar := days_between date (mk_datetime 2023 3 1) in
       let base := 15 + (inject_Z day_in_mar / 31) * 5 in
       z <- np_random_normal 0 2.0 ;; ret (base + z)
     else
       z <- np_random_normal 0 2.0 ;; ret (20 + z)) ;;
  ret (py_max 0 temp).

(** Body of the air-quality loop.  [temperature] is the finished
    temperature list; [temperature[i]] is in range because both loops run
    over [dates] (the default of [nth] is never used). *)
Definition aqi_body (temperature : list Q) (i : nat) (date : datetime)
    : M Z :=
  let month := month date in
  let day := day date in
  aqi_val <-
    (if (month =? 1)%Z then
       base <-
         (if (20 <=? day)%Z && (day <=? 25)%Z then
            if py_in day [21; 22; 23]%Z then
              u <- np_random_uniform 0 10 ;; ret (145 + u)
            else
              u <- np_random_uniform (-5) 10 ;; ret (130 + u)
          else
            ret (150 - (nth i temperature 0 * 12))) ;;
       z <- np_random_normal 0 3 ;;
       ret (py_max 30 (base + z))
     else if (month =? 2)%Z then
       let base := 80 in
       z <- np_random_normal 0 25 ;;
       let aqi_val := py_max 30 (base + z) in
       ret (if py_in day [12; 18]%Z then py_max 105 aqi_val else aqi_val)
     else if (month =? 3)%Z then
       let base := 70 in
       z <- np_random_normal 0 10 ;; ret (py_max 30 (base + z))
     else
       let base := 65 in
       z <- np_random_normal 0 8 ;; ret (py_max 30 (base + z))) ;;
  ret (py_int aqi_val).

(** Body of the CO2 loop. *)
Definition co2_body (i : nat) (date : datetime) : M Q :=
  let base := 410 + 8 * np_sin (float_of_nat i / 7) in
  z <- np_random_normal 0 4 ;;
  let co2_val := base + z in
  ret (py_max 385 (py_min 435 co2_val)).

(** Body of the precipitation loop. *)
Definition precipitation_body (i : nat) (date : datetime) : M Q :=
  let month := month date in
  let day := day date in
  precip <-
    (if (month =? 2)%Z && py_in day [12; 18]%Z then
       np_random_uniform 6 15
     else
       r <- np_random_random ;;
       if Qlt_bool r 0.15 then np_random_exponential 2.5
       else np_random_uniform 0 0.5) ;;
  ret (py_max 0 precip).

(** The four lists the script builds, in the order it builds them. *)
Record series : Type := mk_series {
  temperature : list Q;
  aqi : list Z;
  co2 : list Q;
  precipitation : list Q
}.

(** [np.random.seed(n)] overwrites the global state. *)
Definition np_random_seed (n : Z) : M unit := fun _ => (tt, np_seed n).

Definition build_series : M series :=
  temperature <- for_enumerate temperature_body 0 dates ;;
  aqi <- for_enumerate (aqi_body temperature) 0 dates ;;
  co2 <- for_enumerate co2_body 0 dates ;;
  precipitation <- for_enumerate precipitation_body 0 dates ;;
  ret (mk_series temperature aqi co2 precipitation).

(** The script from its first statement: seed, then the four loops.
    [s0] is the state of the global generator when the interpreter
    reaches the script. *)
Definition generate (s0 : rng) : series :=
  fst ((_ <- np_random_seed 42 ;; build_series) s0).

(** [xs[a:b]] *)
Definition slice {A} (a b : nat) (xs : list A) : list A :=
  firstn (b - a) (skipn a xs).

(** The T5 count printed by the generator:
    [sum(1 for p, a in zip(feb_precip, feb_aqi_vals) if p > 5 and a > 100)] *)
Definition t5_hit (pa : Q * Z) : bool :=
  Qlt_bool 5 (fst pa) && (100 <? snd pa)%Z.

Definition generator_t5_count (d : series) : nat :=
  let feb_precip := slice 31 59 (precipitation d) in
  let feb_aqi_vals := slice 31 59 (aqi d) in
  length (filter t5_hit (combine feb_precip feb_aqi_vals)).

End Generator.

(** Position [k] of the horizon carries a forced joint event: the
    air-quality value is at least 105 and the precipitation lies in
    [6, 15). *)
Definition forced_event (d : series) (k : nat) : Prop :=
  exists (a : Z) (p : Q),
    nth_error (aqi d) k = Some a /\ nth_error (precipitation d) k = Some p /\
    (105 <= a)%Z /\ 6 <= p /\ p < 15.

(** ** Persisted tables *)

(** What a path holds when a script opens it.  A table is the parsed
    content of a CSV file with a [Date] column and one value column; the
    text behind it is the subject of the next section. *)
Inductive csv_file (R : Type) : Type :=
| Missing
| Unreadable
| Table (rows : list R).

Arguments Missing {R}.
Arguments Unreadable {R}.
Arguments Table {R} rows.

(** The four paths under [public/test-data]. *)
Record test_data : Type := mk_test_data {
  temperature_csv : csv_file (datetime * Q);
  air_quality_csv : csv_file (datetime * Q);
  co2_csv : csv_file (datetime * Q);
  precipitation_csv : csv_file (datetime * Q)
}.

(** [pd.DataFrame({'Date': dates, name: values}).to_csv(path, index=False)] *)
Definition to_csv (dates : list datetime) (values : list Q)
    : csv_file (datetime * Q) :=
  Table (combine dates values).

(** The files the generator leaves behind. *)
Definition persist (d : series) : test_data :=
  mk_test_data (to_csv dates (temperature d))
               (to_csv dates (map inject_Z (aqi d)))
               (to_csv dates (co2 d))
               (to_csv dates (precipitation d)).

Open Scope char_scope.
Open Scope string_scope.

(** ** The text of the CSV files

    [DataFrame.to_csv] and [pd.read_csv] belong to pandas.  Their text
    is modelled as far as the scripts rely on it: a file is its list of
    lines, the first one the header; a date is written in ISO form
    ([2023-01-01]), an integer in decimal, a float in decimal notation,
    rounded to a given number of decimals (the exponent notation of
    very small or large floats is left out). *)

Definition digit_char (d : Z) : ascii := ascii_of_N (Z.to_N (48 + d)).

Definition char_digit (c : ascii) : option Z :=
  let n := Z.of_N (N_of_ascii c) in
  if ((48 <=? n) && (n <=? 57))%Z then Some (n - 48)%Z else None.

(** The [k] last decimal digits of [n], most significant first, written
    in front of [rest]: ['%0kd' % n] for a number below [10^k]. *)
Fixpoint show_digits (k : nat) (n : Z) (rest : string) : string :=
  match k with
  | O => rest
  | S k' => show_digits k' (n / 10) (String (digit_char (n mod 10)) rest)
  end.

(** The number of decimal digits of a natural number. *)
Fixpoint ndigits_fuel (fuel : nat) (n : Z) : nat :=
  match fuel with
  | O => 1
  | S fuel' => if (n <? 10)%Z then 1 else S (ndigits_fuel fuel' (n / 10))
  end.

Definition ndigits (n : Z) : nat := ndigits_fuel (Z.to_nat (Z.log2 n)) n.

(** [str(n)] for a natural number, in front of [rest] *)
Definition show_nat (n : Z) (rest : string) : string :=
  show_digits (ndigits n) n rest.

(** [str(n)] for an integer *)
Definition show_int (n : Z) (rest : string) : string :=
  if (n <? 0)%Z then String "-" (show_nat (- n) rest) else show_nat n rest.

Definition format_int (n : Z) : string := show_int n EmptyString.

(** A float in decimal notation with [decimals] digits after the point,
    rounded to the nearest. *)
Definition format_float (decimals : nat) (x : Q) : string :=
  let p := (10 ^ Z.of_nat decimals)%Z in
  let scaled := Qfloor (Qabs x * inject_Z p + 1 / 2) in
  let body := show_nat (scaled / p)
                (String "." (show_digits decimals (scaled mod p) EmptyString)) in
  if Qlt_bool x 0 then String "-" body else body.

(** [date.strftime('%Y-%m-%d')], in front of [rest] *)
Definition show_date (d : datetime) (rest : string) : string :=
  show_digits 4 (year d)
    (String "-" (show_digits 2 (month d)
       (String "-" (show_digits 2 (day d) rest)))).

Definition format_date (d : datetime) : string := show_date d EmptyString.

(** The header and the lines of a file with a [Date] column and one
    value column, as [to_csv(path, index=False)] writes them. *)
Definition header (name : string) : string :=
  String.append "Date," name.

Definition to_csv_text (name : string) (dates : list datetime)
    (cells : list string) : list string :=
  header name
  :: map (fun r => show_date (fst r) (String "," (snd r)))
         (combine dates cells).

(** Reading: the longest run of decimal digits at the head of a string,
    with its value (from [acc]), its length (from [count]) and what
    follows it. *)
Fixpoint read_digits (acc : Z) (count : nat) (s : string)
    : Z * nat * string :=
  match s with
  | EmptyString => (acc, count, s)
  | String c s' =>
      match char_digit c with
      | Some d => read_digits (10 * acc + d) (S count) s'
      | None => (acc, count, s)
      end
  end.

(** A date of the calendar. *)
Definition valid_date (y m d : Z) : bool :=
  ((1 <=? m) && (m <=? 12) && (1 <=? d) && (d <=? days_in_month y m))%Z.

(** The string after the character [c], when [s] starts with it. *)
Definition expect (c : ascii) (s : string) : option string :=
  match s with
  | String c' s' => if Ascii.eqb c' c then Some s' else None
  | EmptyString => None
  end.

(** [pd.to_datetime] on an ISO date at the head of a string. *)
Definition read_date (s : string) : option (datetime * string) :=
  let '(y, ny, s1) := read_digits 0 0 s in
  match expect "-" s1 with
  | Some s2 =>
      let '(m, nm, s3) := read_digits 0 0 s2 in
      match expect "-" s3 with
      | Some s4 =>
          let '(d, nd, s5) := read_digits 0 0 s4 in
          if Nat.eqb ny 4 && Nat.eqb nm 2 && Nat.eqb nd 2 && valid_date y m d
          then Some (mk_datetime y m d, s5)
          else None
      | None => None
      end
  | None => None
  end.

(** A numeric cell: an optional sign, digits, and optionally a point
    followed by digits.  Without a point the cell is an integer. *)
Definition read_value (s : string) : option Q :=
  let (negative, s1) := match expect "-" s with
                        | Some s' => (true, s')
                        | None => (false, s)
                        end in
  let sign (n : Z) : Z := if negative then (- n)%Z else n in
  let '(ip, n1, s2) := read_digits 0 0 s1 in
  if Nat.eqb n1 0 then None
  else match s2 with
       | EmptyString => Some (inject_Z (sign ip))
       | String c s3 =>
           if Ascii.eqb c "." then
             let '(fp, n2, s4) := read_digits 0 0 s3 in
             match s4 with
             | EmptyString =>
                 let p := (10 ^ Z.of_nat n2)%Z in
                 Some (inject_Z (sign (ip * p + fp)%Z) / inject_Z p)
             | _ => None
             end
           else None
       end.

Definition read_row (line : string) : option (datetime * Q) :=
  match read_date line with
  | Some (d, s) =>
      match expect "," s with
      | Some cell =>
          match read_value cell with
          | Some v => Some (d, v)
          | None => None
          end
      | None => None
      end
  | None => None
  end.

Fixpoint read_rows (lines : list string) : option (list (datetime * Q)) :=
  match lines with
  | [] => Some []
  | line :: lines' =>
      match read_row line, read_rows lines' with
      | Some r, Some rs => Some (r :: rs)
      | _, _ => None
      end
  end.

(** What [pd.read_csv] and [pd.to_datetime] make of the text of a file
    whose value column is expected under [name]. *)
Definition parse_csv (name : string) (lines : list string)
    : csv_file (datetime * Q) :=
  match lines with
  | [] => Unreadable
  | h :: lines' =>
      if String.eqb h (header name)
      then match read_rows lines' with
           | Some rows => Table rows
           | None => Unreadable
           end
      else Unreadable
  end.

(** The column names of the four files. *)
Definition temperature_name : string :=
  String.append "Temperature (" (String "194" (String "176" "C)")).
Definition air_quality_name : string := "Air Quality Index".
Definition co2_name : string := "CO2 (ppm)".
Definition precipitation_name : string := "Precipitation (mm)".

(** The text the generator writes, with floats to [decimals] places. *)
Record test_text : Type := mk_test_text {
  temperature_txt : list string;
  air_quality_txt : list string;
  co2_txt : list string;
  precipitation_txt : list string
}.

Definition persist_text (decimals : nat) (d : series) : test_text :=
  mk_test_text
    (to_csv_text temperature_name dates
       (map (format_float decimals) (temperature d)))
    (to_csv_text air_quality_name dates (map format_int (aqi d)))
    (to_csv_text co2_name dates (map (format_float decimals) (co2 d)))
    (to_csv_text precipitation_name dates
       (map (format_float decimals) (precipitation d))).

(** The tables the verifier finds when it opens that text. *)
Definition load_text (t : test_text) : test_data :=
  mk_test_data (parse_csv temperature_name (temperature_txt t))
               (parse_csv air_quality_name (air_quality_txt t))
               (parse_csv co2_name (co2_txt t))
               (parse_csv precipitation_name (precipitation_txt t)).

(** A table holds the dates [ds] and, in the same order, values within
    [tol] of [xs]. *)
Definition reloads (tol : Q) (f : csv_file (datetime * Q))
    (ds : list datetime) (xs : list Q) : Prop :=
  exists rows,
    f = Table rows /\ map fst rows = ds /\
    Forall2 (fun y x => Qabs (y - x) <= tol) (map snd rows) xs.

(** The value a float is read back as: rounded to [decimals] places. *)
Definition round_decimals (decimals : nat) (x : Q) : Q :=
  let p := (10 ^ Z.of_nat decimals)%Z in
  let scaled := Qfloor (Qabs x * inject_Z p + 1 / 2) in
  inject_Z (if Qlt_bool x 0 then (- scaled)%Z else scaled) / inject_Z p.

(** The rounding error of [decimals] places: half a unit of the last. *)
Definition tolerance (decimals : nat) : Q :=
  1 / inject_Z (2 * 10 ^ Z.of_nat decimals).

(** A date the ISO form holds: a year of four digits, a month and a day
    of the calendar. *)
Definition iso_date (d : datetime) : bool :=
  ((0 <=? year d) && (year d <? 10000))%Z
  && valid_date (year d) (month d) (day d).

Close Scope string_scope.
Close Scope char_scope.

(** ** A fragment of pandas *)

Inductive error : Type :=
| FileNotFoundError
| ReadError
| IndexingError
| ValueError.

(** A Series: values with their index labels.  A DataFrame read from a
    file has the labels [0 .. n-1]. *)
Definition Series (A : Type) : Type := list (nat * A).

Definition DataFrame : Type := Series (datetime * Q).

Definition range_index {A} (xs : list A) : Series A :=
  combine (seq 0 (length xs)) xs.

(** [pd.read_csv(path)] followed by [pd.to_datetime] on the Date column *)
Definition read_csv (f : csv_file (datetime * Q)) : error + DataFrame :=
  match f with
  | Missing => inl FileNotFoundError
  | Unreadable => inl ReadError
  | Table rows => inr (range_index rows)
  end.

Definition column {A B} (f : A -> B) (df : Series A) : Series B :=
  map (fun r => (fst r, f (snd r))) df.

Definition values {A} (s : Series A) : list A := map snd s.

Fixpoint lookup {A} (i : nat) (s : Series A) : option A :=
  match s with
  | [] => None
  | (j, a) :: s' => if Nat.eqb i j then Some a else lookup i s'
  end.

(** [df[mask]] for a boolean Series [mask]: the mask is looked up at the
    labels of [df]; a label of [df] the mask does not have is an
    [IndexingError] (unalignable boolean Series). *)
Fixpoint getitem_bool {A} (mask : Series bool) (df : Series A)
    : error + Series A :=
  match df with
  | [] => inr []
  | (i, a) :: df' =>
      match lookup i mask, getitem_bool mask df' with
      | None, _ => inl IndexingError
      | _, inl e => inl e
      | Some true, inr rest => inr ((i, a) :: rest)
      | Some false, inr rest => inr rest
      end
  end.

(** Floats that may be not-a-number. *)
Definition float : Type := option Q.

(** [a > b]: false as soon as one side is not-a-number *)
Definition float_gt (a b : float) : bool :=
  match a, b with
  | Some x, Some y => Qlt_bool y x
  | _, _ => false
  end.

Definition float_lt (a b : float) : bool := float_gt b a.

(** [max(a, b, c)] and [min(a, b)] on floats, as CPython evaluates them *)
Definition float_max3 (a b c : float) : float :=
  let m := if float_gt b a then b else a in
  if float_gt c m then c else m.

Definition float_min (a b : float) : float :=
  if float_lt b a then b else a.

Definition float_sub (a b : float) : float :=
  match a, b with
  | Some x, Some y => Some (x - y)
  | _, _ => None
  end.

Definition float_abs (a : float) : float := option_map Qabs a.

(** Sums are kept in lowest terms. *)
Definition Qsum (xs : list Q) : Q :=
  fold_right (fun x acc => Qred (x + acc)) 0 xs.

Definition float_of_len {A} (xs : list A) : Q := float_of_nat (length xs).

(** [Series.mean()]: not-a-number on an empty Series *)
Definition mean (xs : list Q) : float :=
  match xs with
  | [] => None
  | _ => Some (Qsum xs / float_of_len xs)
  end.

(** The sample variance (one delta degree of freedom), taken exactly;
    not-a-number below two values.  [Series.var()] returns it up to the
    rounding of binary64. *)
Definition var (xs : list Q) : float :=
  match xs with
  | [] | [_] => None
  | _ =>
      let m := Qsum xs / float_of_len xs in
      Some (Qsum (map (fun x => (x - m) * (x - m)) xs)
            / (float_of_len xs - 1))
  end.

(** [np.var]: the population variance *)
Definition np_var (xs : list Q) : float :=
  match xs with
  | [] => None
  | _ =>
      let m := Qsum xs / float_of_len xs in
      Some (Qsum (map (fun x => (x - m) * (x - m)) xs) / float_of_len xs)
  end.

(** [Series.idxmax()]: the label of the first occurrence of the maximum;
    a [ValueError] on an empty Series *)
Fixpoint idxmax_from (best : nat * Q) (s : Series Q) : nat :=
  match s with
  | [] => fst best
  | (i, x) :: s' =>
      if Qlt_bool (snd best) x then idxmax_from (i, x) s'
      else idxmax_from best s'
  end.

Definition idxmax (s : Series Q) : error + nat :=
  match s with
  | [] => inl ValueError
  | b :: s' => inr (idxmax_from b s')
  end.

(** [a & b] on boolean Series followed by [.sum()]: labels are aligned,
    a label missing on one side counts as false *)
Definition count_both (a b : Series bool) : nat :=
  length (filter (fun r => snd r && match lookup (fst r) b with
                                    | Some true => true
                                    | _ => false
                                    end) a).

(** ** The verifier: [verify_tasks.py] *)

Inductive status : Type := PASS | FAIL.

Definition status_of (b : bool) : status := if b then PASS else FAIL.

(** A run of the verifier prints status lines and stops at the first
    exception. *)
Definition V (A : Type) : Type := list status -> list status * (error + A).

Definition vret {A} (a : A) : V A := fun out => (out, inr a).

Definition vbind {A B} (m : V A) (k : A -> V B) : V B :=
  fun out =>
    match m out with
    | (out', inl e) => (out', inl e)
    | (out', inr a) => k a out'
    end.

(** Evaluating an expression that may raise. *)
Definition eval {A} (r : error + A) : V A := fun out => (out, r).

(** [print("  Status: ...")] *)
Definition print_status (st : status) : V unit :=
  fun out => (out ++ [st], inr tt).

Notation "x <~ m ;; k" := (vbind m (fun x => k))
  (at level 61, m at next level, right associativity).

(** What the operator sees of a run: the status lines printed, and the
    exception that ended it, if any. *)
Definition run (m : V unit) : list status * option error :=
  match m [] with
  | (out, inl e) => (out, Some e)
  | (out, inr _) => (out, None)
  end.

(** The five tests behind the status lines. *)

(** [feb_aqi_var > max(feb_temp_var, feb_co2_var, feb_precip_var)] *)
Definition t1_check (feb_temp_var feb_aqi_var feb_co2_var feb_precip_var
    : float) : status :=
  status_of (float_gt feb_aqi_var
               (float_max3 feb_temp_var feb_co2_var feb_precip_var)).

(** [corr_aqi < min(corr_co2, corr_precip)] *)
Definition t2_check (corr_aqi corr_co2 corr_precip : float) : status :=
  status_of (float_lt corr_aqi (float_min corr_co2 corr_precip)).

(** [max_aqi_date.month == 1 and 20 <= max_aqi_date.day <= 25] *)
Definition t3_check (max_aqi_date : datetime) : status :=
  status_of ((month max_aqi_date =? 1)%Z &&
             ((20 <=? day max_aqi_date)%Z && (day max_aqi_date <=? 25)%Z)).

(** [temp_increase > 10 and abs(co2_change) < 5] *)
Definition t4_check (temp_increase co2_change : float) : status :=
  status_of (float_gt temp_increase (Some 10) &&
             float_lt (float_abs co2_change) (Some 5)).

(** [count in [1, 2]] *)
Definition t5_check (count : nat) : status :=
  status_of (py_in (Z.of_nat count) [1; 2]%Z).

Section Verifier.

Context {np : NumPy}.

Definition month_is (m : Z) (df : DataFrame) : Series bool :=
  column (fun r => (month (fst r) =? m)%Z) df.

(** [df[mask][value_column]] as a list of floats *)
Definition masked_values (mask : Series bool) (df : DataFrame)
    : error + list Q :=
  match getitem_bool mask df with
  | inl e => inl e
  | inr sel => inr (values (column snd sel))
  end.

(** [sum((x - mean(x)) * (y - mean(y)))] *)
Definition sum_dev (x y : list Q) : Q :=
  let mx := Qred (Qsum x / float_of_len x) in
  let my := Qred (Qsum y / float_of_len y) in
  Qsum (map (fun p => (fst p - mx) * (snd p - my)) (combine x y)).

(** [np.clip(r, -1, 1)] *)
Definition clip (r : Q) : Q := py_min 1 (py_max (-1) r).

(** The Pearson coefficient as [np.corrcoef(x, y)[0, 1]] computes it: the
    covariance divided by one standard deviation, then by the other, and
    clipped; not-a-number below two points or on a zero variance. *)
Definition np_corrcoef (x y : list Q) : float :=
  match x with
  | [] | [_] => None
  | _ =>
      let n1 := float_of_len x - 1 in
      let cxy := sum_dev x y / n1 in
      let cxx := sum_dev x x / n1 in
      let cyy := sum_dev y y / n1 in
      if Qeq_bool cxx 0 || Qeq_bool cyy 0 then None
      else Some (clip (cxy / np_sqrt cxx / np_sqrt cyy))
  end.

(** Arrays of different lengths are refused. *)
Definition corrcoef (x y : list Q) : error + float :=
  if Nat.eqb (length x) (length y) then inr (np_corrcoef x y)
  else inl ValueError.

Definition verify_tasks_script (fs : test_data) : V unit :=
  temp_df <~ eval (read_csv (temperature_csv fs)) ;;
  aqi_df <~ eval (read_csv (air_quality_csv fs)) ;;
  co2_df <~ eval (read_csv (co2_csv fs)) ;;
  precip_df <~ eval (read_csv (precipitation_csv fs)) ;;
  (* T1 *)
  let feb_mask := month_is 2 temp_df in
  feb_temp <~ eval (masked_values feb_mask temp_df) ;;
  feb_aqi <~ eval (masked_values feb_mask aqi_df) ;;
  feb_co2 <~ eval (masked_values feb_mask co2_df) ;;
  feb_precip <~ eval (masked_values feb_mask precip_df) ;;
  let feb_temp_var := series_var feb_temp in
  let feb_aqi_var := series_var feb_aqi in
  let feb_co2_var := series_var feb_co2 in
  let feb_precip_var := series_var feb_precip in
  _ <~ print_status
         (t1_check feb_temp_var feb_aqi_var feb_co2_var feb_precip_var) ;;
  (* T2 *)
  let jan_mask := month_is 1 temp_df in
  jan_temp <~ eval (masked_values jan_mask temp_df) ;;
  jan_aqi <~ eval (masked_values jan_mask aqi_df) ;;
  jan_co2 <~ eval (masked_values jan_mask co2_df) ;;
  jan_precip <~ eval (masked_values jan_mask precip_df) ;;
  corr_aqi <~ eval (corrcoef jan_temp jan_aqi) ;;
  corr_co2 <~ eval (corrcoef jan_temp jan_co2) ;;
  corr_precip <~ eval (corrcoef jan_temp jan_precip) ;;
  _ <~ print_status (t2_check corr_aqi corr_co2 corr_precip) ;;
  (* T3 *)
  let jan_apr_mask := column (fun r => (month (fst r) <=? 4)%Z) aqi_df in
  jan_apr <~ eval (getitem_bool jan_apr_mask aqi_df) ;;
  max_aqi_idx <~ eval (idxmax (column snd jan_apr)) ;;
  max_aqi_date <~ eval (match lookup max_aqi_idx aqi_df with
                        | Some r => inr (fst r)
                        | None => inl IndexingError
                        end) ;;
  _ <~ print_status (t3_check max_aqi_date) ;;
  (* T4 and T6 *)
  jan_temp' <~ eval (masked_values jan_mask temp_df) ;;
  feb_temp' <~ eval (masked_values feb_mask temp_df) ;;
  let jan_mean := mean jan_temp' in
  let feb_mean := mean feb_temp' in
  let mar_mask := month_is 3 temp_df in
  mar_temp <~ eval (masked_values mar_mask temp_df) ;;
  let mar_mean := mean mar_temp in
  let temp_increase := float_sub mar_mean jan_mean in
  jan_co2' <~ eval (masked_values jan_mask co2_df) ;;
  mar_co2 <~ eval (masked_values mar_mask co2_df) ;;
  let co2_change := float_sub (mean mar_co2) (mean jan_co2') in
  _ <~ print_status (t4_check temp_increase co2_change) ;;
  (* T5 *)
  feb_precip_df <~ eval (getitem_bool feb_mask precip_df) ;;
  let feb_precip_high := column (fun r => Qlt_bool 5 (snd r)) feb_precip_df in
  feb_aqi_df <~ eval (getitem_bool feb_mask aqi_df) ;;
  let feb_aqi_high := column (fun r => Qlt_bool 100 (snd r)) feb_aqi_df in
  let count := count_both feb_precip_high feb_aqi_high in
  print_status (t5_check count).

Definition verify_tasks (fs : test_data) : list status * option error :=
  run (verify_tasks_script fs).

End Verifier.

(** ** The second verifier: [scripts/verify-task-answers.py]

    It reads one joined table with the columns [date], [temperature],
    [aqi], [co2] and [precipitation].  Each [verify_task_n] is modelled by
    the answer it prints. *)

Inductive variable : Type := Temperature | AQI | CO2 | Precipitation.

Record row : Type := mk_row {
  row_date : datetime;
  row_temperature : Q;
  row_aqi : Q;
  row_co2 : Q;
  row_precipitation : Q
}.

(** [data[var]] on one row *)
Definition col (v : variable) (r : row) : Q :=
  match v with
  | Temperature => row_temperature r
  | AQI => row_aqi r
  | CO2 => row_co2 r
  | Precipitation => row_precipitation r
  end.

(** The four series side by side, one row per date. *)
Fixpoint zip_rows (ds : list datetime) (t a c p : list Q) : list row :=
  match ds, t, a, c, p with
  | d :: ds', x :: t', y :: a', z :: c', w :: p' =>
      mk_row d x y z w :: zip_rows ds' t' a' c' p'
  | _, _, _, _, _ => []
  end.

Definition joined (d : series) : list row :=
  zip_rows dates (temperature d) (map inject_Z (aqi d)) (co2 d)
           (precipitation d).

(** How a call that may leave the interpreter ends. *)
Inductive exit_or (A : Type) : Type :=
| Returned (a : A)
| SysExit (code : Z).

Arguments Returned {A} a.
Arguments SysExit {A} code.

(** [load_data]: both [except] branches end in [sys.exit(1)]. *)
Definition load_data (f : csv_file row) : exit_or (list row) :=
  match f with
  | Missing => SysExit 1
  | Unreadable => SysExit 1
  | Table rows => Returned rows
  end.

(** [data[(data['date'] >= lo) & (data['date'] < hi)]] *)
Definition between (lo hi : datetime) (data : list row) : list row :=
  filter (fun r => (toordinal lo <=? toordinal (row_date r))%Z &&
                   (toordinal (row_date r) <? toordinal hi)%Z) data.

Section TaskAnswers.

Context {np : NumPy}.

(** [scipy.stats.pearsonr(x, y)[0]]: the same coefficient as
    [np.corrcoef]. *)
Definition pearsonr (x y : list Q) : float := np_corrcoef x y.

(** [scipy.stats.linregress(x, y)]: slope and correlation coefficient;
    [None] where SciPy raises (fewer than two points, or all [x] equal). *)
Definition linregress (x y : list Q) : option (Q * Q) :=
  match x with
  | [] | [_] => None
  | _ =>
      let ssxm := sum_dev x x in
      let ssym := sum_dev y y in
      let ssxym := sum_dev x y in
      if Qeq_bool ssxm 0 then None
      else
        let r := if Qeq_bool ssym 0 then 0
                 else clip (ssxym / np_sqrt (ssxm * ssym)) in
        Some (Qred (ssxym / ssxm), r)
  end.

(** [min(xs, key=...)] with float keys: the first of the smallest. *)
Fixpoint min_by_key {A} (best : A * float) (xs : list (A * float))
    : A * float :=
  match xs with
  | [] => best
  | x :: xs' =>
      if float_lt (snd x) (snd best) then min_by_key x xs'
      else min_by_key best xs'
  end.

(** Task 2: the variable with the most negative January correlation with
    temperature, among air quality, CO2 and precipitation. *)
Definition verify_task_2 (data : list row) : variable * float :=
  let jan_data := between (mk_datetime 2023 1 1) (mk_datetime 2023 2 1) data in
  let r v := pearsonr (map (col Temperature) jan_data)
                      (map (col v) jan_data) in
  min_by_key (AQI, r AQI) [(CO2, r CO2); (Precipitation, r Precipitation)].

(** Task 3: the date of the first maximum of the air-quality column. *)
Definition verify_task_3 (data : list row) : error + datetime :=
  match idxmax (range_index (map (col AQI) data)) with
  | inl e => inl e
  | inr i => match nth_error data i with
             | Some r => inr (row_date r)
             | None => inl IndexingError
             end
  end.


(** The test of task 6: [r_squared > 0.70 and slope > 0]. *)
Definition clear_trend (x : list Q) (data : list row) (v : variable) : bool :=
  match linregress x (map (col v) data) with
  | Some (slope, r_value) =>
      let r_squared := r_value * r_value in
      Qlt_bool 0.70 r_squared && Qlt_bool 0 slope
  | None => false
  end.

(** Task 6: the variables with a clear increasing trend over January to
    March, in the order the script examines them. *)
Definition verify_task_6 (data : list row) : list variable :=
  let jan_mar_data :=
    between (mk_datetime 2023 1 1) (mk_datetime 2023 4 1) data in
  let x := map float_of_nat (seq 0 (length jan_mar_data)) in
  filter (clear_trend x jan_mar_data)
         [Temperature; AQI; CO2; Precipitation].

End TaskAnswers.

(** ** NumPy's legacy random stream and the functions of the C library

    The generator is run on NumPy's legacy [RandomState]: the Mersenne
    Twister MT19937 seeded as [np.random.seed] seeds it, doubles built
    from two 32-bit outputs, normal deviates by the polar method with one
    cached deviate, exponential deviates by inversion.  The integer part
    is bit-exact.  [log], [sqrt], [sin] and the two products that yield
    the normal deviates are evaluated in fixed point with 64 fractional
    bits, which stands for their binary64 results. *)

Module MT19937.

Local Open Scope Z_scope.

Definition RK_STATE_LEN : nat := 624.
Definition N : nat := 624.
Definition M : nat := 397.
Definition MATRIX_A : Z := 0x9908b0df.
Definition UPPER_MASK : Z := 0x80000000.
Definition LOWER_MASK : Z := 0x7fffffff.

(** Conversion to [uint32_t]. *)
Definition uint32 (x : Z) : Z := x mod 2 ^ 32.

Record state : Type := mk_state { key : list Z; pos : nat }.

(** [a[i] = v] *)
Fixpoint set_nth (i : nat) (v : Z) (a : list Z) : list Z :=
  match a, i with
  | [], _ => []
  | _ :: a', O => v :: a'
  | x :: a', S i' => x :: set_nth i' v a'
  end.

(** The loop of [mt19937_seed], from position [pos] on. *)
Fixpoint seed_loop (n : nat) (pos : Z) (seed : Z) : list Z :=
  match n with
  | O => []
  | S n' =>
      seed :: seed_loop n' (pos + 1)
                (Z.land (1812433253 * Z.lxor seed (Z.shiftr seed 30) + pos + 1)
                        0xffffffff)
  end.

Definition mt19937_seed (seed : Z) : state :=
  mk_state (seed_loop RK_STATE_LEN 0 (Z.land seed 0xffffffff)) RK_STATE_LEN.

(** One assignment of [mt19937_gen]:
    [y = (key[i] & UPPER_MASK) | (key[j] & LOWER_MASK);
     key[i] = key[k] ^ (y >> 1) ^ (-(y & 1) & MATRIX_A)] *)
Definition twist (i j k : nat) (key : list Z) : list Z :=
  let y := Z.lor (Z.land (nth i key 0) UPPER_MASK)
                 (Z.land (nth j key 0) LOWER_MASK) in
  set_nth i (Z.lxor (Z.lxor (nth k key 0) (Z.shiftr y 1))
                    (Z.land (uint32 (- Z.land y 1)) MATRIX_A)) key.

Definition mt19937_gen (s : state) : state :=
  let key := fold_left (fun key i => twist i (i + 1) (i + M) key)%nat
                       (seq 0 (N - M)) (key s) in
  let key := fold_left (fun key i => twist i (i + 1) (i + M - N) key)%nat
                       (seq (N - M) (M - 1)) key in
  let key := twist (N - 1) 0 (M - 1) key in
  mk_state key 0.

Definition mt19937_next (s : state) : Z * state :=
  let s := if Nat.eqb (pos s) RK_STATE_LEN then mt19937_gen s else s in
  let y := nth (pos s) (key s) 0 in
  let y := Z.lxor y (Z.shiftr y 11) in
  let y := Z.lxor y (Z.land (Z.shiftl y 7) 0x9d2c5680) in
  let y := Z.lxor y (Z.land (Z.shiftl y 15) 0xefc60000) in
  let y := Z.lxor y (Z.shiftr y 18) in
  (uint32 y, mk_state (key s) (S (pos s))).

Definition mt19937_next_double (s : state) : Q * state :=
  let (x, s1) := mt19937_next s in
  let a := Z.shiftr x 5 in
  let (y, s2) := mt19937_next s1 in
  let b := Z.shiftr y 6 in
  (Qmake (a * 67108864 + b) 9007199254740992, s2).

End MT19937.

(** The functions of the C library the stream and the verifiers call,
    and their evaluation in fixed point. *)
Module Libm.

Local Open Scope Z_scope.

(** [rnd] is the rounding of a product to the double it is stored in. *)
Record t : Type := mk {
  log : Q -> Q;
  sqrt : Q -> Q;
  sin : Q -> Q;
  rnd : Q -> Q
}.

Section FixedPoint.

(** Number of fractional bits. *)
Variable prec : Z.

(** [floor (x * 2^prec)] *)
Definition fix_of (x : Q) : Z := Z.shiftl (Qnum x) prec / Zpos (Qden x).

(** [n / 2^prec] *)
Definition Q_of (n : Z) : Q := Qmake n (Z.to_pos (2 ^ prec)).

(** Rounding to the grid, downwards. *)
Definition fx_rnd (x : Q) : Q := Q_of (fix_of x).

(** [t + t^3/3 + t^5/5 + ...]: [n] terms from the power [pw] and the
    odd divisor [k] on. *)
Fixpoint atanh_series (n : nat) (pw t2 k : Z) : Z :=
  match n with
  | O => 0
  | S n' => pw / k + atanh_series n' (Z.shiftr (pw * t2) prec) t2 (k + 2)
  end.

Definition atanh (t : Z) : Z := atanh_series 24 t (Z.shiftr (t * t) prec) 1.

Definition ln2 : Z := 2 * atanh (2 ^ prec / 3).

(** [log x] for [x > 0]: [x = m * 2^e] with [m] between 1/2 and 2, and
    [log m = 2 atanh ((m - 1) / (m + 1))].  (The scripts reach [log] only
    with arguments in (0, 1]; the value at [x <= 0] is immaterial.) *)
Definition fx_log (x : Q) : Q :=
  let e := Z.log2 (Qnum x) - Z.log2 (Zpos (Qden x)) in
  let m := (x * Qpower 2 (- e))%Q in
  let t := fix_of ((m - 1) / (m + 1))%Q in
  Q_of (e * ln2 + 2 * atanh t).

(** [sqrt x] for [x >= 0], rounded down. *)
Definition fx_sqrt (x : Q) : Q :=
  Q_of (Z.sqrt (Z.shiftl (Qnum x) (2 * prec) / Zpos (Qden x))).

(** [x - x^3/3! + x^5/5! - ...]: [n] terms from [term] on, [k] being the
    next factor of the factorial. *)
Fixpoint sin_series (n : nat) (term x2 k : Z) : Z :=
  match n with
  | O => 0
  | S n' =>
      term + sin_series n' (- (Z.shiftr (term * x2) prec) / (k * (k + 1)))
                        x2 (k + 2)
  end.

Definition fx_sin (x : Q) : Q :=
  let xf := fix_of x in
  Q_of (sin_series 40 xf (Z.shiftr (xf * xf) prec) 2).

End FixedPoint.

Definition fixed_point (prec : Z) : t :=
  mk (fx_log prec) (fx_sqrt prec) (fx_sin prec) (fx_rnd prec).

End Libm.

(** The legacy distributions ([legacy-distributions.c]). *)
Module Legacy.

(** The Mersenne Twister with the cached normal deviate.  [out_of_fuel]
    is not part of NumPy's state: it records that a rejection loop was
    cut off by the bound put on it here. *)
Record aug_state : Type := mk_aug {
  bit_generator : MT19937.state;
  has_gauss : bool;
  gauss : Q;
  out_of_fuel : bool
}.

(** [np.random.seed(n)] for an integer [n] *)
Definition seed (n : Z) : aug_state :=
  mk_aug (MT19937.mt19937_seed n) false 0 false.

Definition legacy_double (s : aug_state) : Q * aug_state :=
  let (u, b) := MT19937.mt19937_next_double (bit_generator s) in
  (u, mk_aug b (has_gauss s) (gauss s) (out_of_fuel s)).

(** [do { x1 = ...; x2 = ...; r2 = ...; } while (r2 >= 1.0 || r2 == 0.0)],
    at most [fuel] rounds. *)
Fixpoint polar_loop (fuel : nat) (b : MT19937.state)
    : option (Q * Q * Q * MT19937.state) :=
  match fuel with
  | O => None
  | S fuel' =>
      let (u1, b1) := MT19937.mt19937_next_double b in
      let x1 := 2 * u1 - 1 in
      let (u2, b2) := MT19937.mt19937_next_double b1 in
      let x2 := 2 * u2 - 1 in
      let r2 := x1 * x1 + x2 * x2 in
      if Qle_bool 1 r2 || Qeq_bool r2 0 then polar_loop fuel' b2
      else Some (x1, x2, r2, b2)
  end.

Definition polar_bound : nat := 1000.

Section Distributions.

Variable libm : Libm.t.

Definition legacy_gauss (s : aug_state) : Q * aug_state :=
  if has_gauss s then
    (gauss s, mk_aug (bit_generator s) false 0 (out_of_fuel s))
  else
    match polar_loop polar_bound (bit_generator s) with
    | Some (x1, x2, r2, b) =>
        let f := Libm.sqrt libm (-2 * Libm.log libm r2 / r2) in
        (Libm.rnd libm (f * x2),
         mk_aug b true (Libm.rnd libm (f * x1)) (out_of_fuel s))
    | None => (0, mk_aug (bit_generator s) false 0 true)
    end.

(** [-log(1.0 - legacy_double(state))] *)
Definition legacy_standard_exponential (s : aug_state) : Q * aug_state :=
  let (u, s') := legacy_double s in (- Libm.log libm (1 - u), s').

End Distributions.

End Legacy.

(** NumPy over a given C library; the variance of a Series is taken
    exactly. *)
Definition numpy_legacy_with (libm : Libm.t) : NumPy := {|
  rng := Legacy.aug_state;
  np_seed := Legacy.seed;
  random_sample := Legacy.legacy_double;
  standard_normal := Legacy.legacy_gauss libm;
  standard_exponential := Legacy.legacy_standard_exponential libm;
  np_sin := Libm.sin libm;
  np_sqrt := Libm.sqrt libm;
  series_var := var
|}.

(** The reference model: 64 fractional bits. *)
#[export] Instance numpy_legacy : NumPy :=
  numpy_legacy_with (Libm.fixed_point 64).

(** A coarser one, for comparison: 32 fractional bits. *)
Definition numpy_legacy_coarse : NumPy :=
  numpy_legacy_with (Libm.fixed_point 32).

(** A NumPy whose [Series.var()] is [sv], all else being equal. *)
Definition with_series_var (np : NumPy) (sv : list Q -> option Q) : NumPy := {|
  rng := @rng np;
  np_seed := @np_seed np;
  random_sample := @random_sample np;
  standard_normal := @standard_normal np;
  standard_exponential := @standard_exponential np;
  np_sin := @np_sin np;
  np_sqrt := @np_sqrt np;
  series_var := sv
|}.

(** ** The run under NumPy's legacy stream *)

(** One run of the script, evaluated once: the four series and the state
    the generator is left in. *)
Definition seeded_run : series * Legacy.aug_state :=
  Eval vm_compute in
    (_ <- np_random_seed (np := numpy_legacy) 42 ;; build_series)
      (Legacy.seed 0).

Definition seeded_series : series := fst seeded_run.

(** The same run over the coarser C library. *)
Definition coarse_series : series :=
  Eval vm_compute in generate (np := numpy_legacy_coarse) (Legacy.seed 0).

(** February is [xs[31:59]], January [xs[:31]]. *)
Definition feb {A} (xs : list A) : list A := slice 31 59 xs.
Definition jan {A} (xs : list A) : list A := slice 0 31 xs.

(** The air-quality column as the verifiers read it. *)
Definition aqi_values (d : series) : list Q := map inject_Z (aqi d).

(** The rows and the regressor of task 6: January to March. *)
Definition jan_mar (d : series) : list row :=
  between (mk_datetime 2023 1 1) (mk_datetime 2023 4 1) (joined d).

Definition day_index (data : list row) : list Q :=
  map float_of_nat (seq 0 (length data)).

(** Slope and coefficient of determination without a square root:
    [ssxym / ssxm] and [ssxym^2 / (ssxm * ssym)]. *)
Definition slope_exact (x y : list Q) : Q := sum_dev x y / sum_dev x x.

Definition r_squared_exact (x y : list Q) : Q :=
  (sum_dev x y * sum_dev x y) / (sum_dev x x * sum_dev y y).

(** The first [n] results of a draw, from state [s] on. *)
Fixpoint draws {np : NumPy} (draw : rng -> Q * rng) (n : nat) (s : rng)
    : list Q :=
  match n with
  | O => []
  | S n' => let (x, s') := draw s in x :: draws draw n' s'
  end.

(** Two lists of numbers agree within [eps], position by position. *)
Fixpoint close_to (eps : Q) (xs ys : list Q) : bool :=
  match xs, ys with
  | [], [] => true
  | x :: xs', y :: ys' => Qlt_bool (Qabs (x - y)) eps && close_to eps xs' ys'
  | _, _ => false
  end.

(** ** The status lines of a run, in general *)

(** A computation only appends to the status lines printed so far. *)
Definition appends {A} (m : V A) : Prop :=
  forall out, exists more, fst (m out) = out ++ more.

(** A computation run from the lines [out]. *)
Definition exec (m : V unit) (out : list status)
    : list status * option error :=
  match m out with
  | (out', inl e) => (out', Some e)
  | (out', inr _) => (out', None)
  end.

(** [xs[mask]] for a list and a boolean mask, position by position. *)
Fixpoint select {A} (mask : list bool) (xs : list A) : list A :=
  match mask, xs with
  | b :: mask', x :: xs' =>
      if b then x :: select mask' xs' else select mask' xs'
  | _, _ => []
  end.

(** The values of a table on the rows where, at the same position, the
    temperature table has a date of month [m]. *)
Definition in_month (m : Z) (temp_rows rows : list (datetime * Q))
    : list Q :=
  select (map (fun r => (month (fst r) =? m)%Z) temp_rows) (map snd rows).

(** The February count of joint events, as the T5 block takes it. *)
Definition feb_joint_count (temp_rows precip_rows aqi_rows
    : list (datetime * Q)) : error + nat :=
  let feb_mask := month_is 2 (range_index temp_rows) in
  match getitem_bool feb_mask (range_index precip_rows),
        getitem_bool feb_mask (range_index aqi_rows) with
  | inr fp, inr fa =>
      inr (count_both (column (fun r => Qlt_bool 5 (snd r)) fp)
                      (column (fun r => Qlt_bool 100 (snd r)) fa))
  | inl e, _ => inl e
  | _, inl e => inl e
  end.

(** ** Availability and alignment of the input files *)

(** A file that cannot be loaded. *)
Definition unavailable {R} (f : csv_file R) : Prop :=
  f = Missing \/ f = Unreadable.

(** The dates a file covers, in order. *)
Definition date_column (f : csv_file (datetime * Q)) : list datetime :=
  match f with
  | Table rows => map fst rows
  | _ => []
  end.

(** The four files cover the same dates. *)
Definition aligned (fs : test_data) : Prop :=
  date_column (air_quality_csv fs) = date_column (temperature_csv fs) /\
  date_column (co2_csv fs) = date_column (temperature_csv fs) /\
  date_column (precipitation_csv fs) = date_column (temperature_csv fs).

(** A run that ended in an exception. *)
Definition aborted (r : list status * option error) : Prop :=
  exists e, snd r = Some e.

(** Three days of temperature, CO2 and precipitation from January 1 and
    February 1 and 2, with an air-quality file that covers March 1 to 3
    instead. *)
Definition misaligned_files : test_data :=
  mk_test_data
    (Table [(mk_datetime 2023 1 1, 5); (mk_datetime 2023 2 1, 10);
            (mk_datetime 2023 2 2, 12)])
    (Table [(mk_datetime 2023 3 1, 50); (mk_datetime 2023 3 2, 60);
            (mk_datetime 2023 3 3, 70)])
    (Table [(mk_datetime 2023 1 1, 410); (mk_datetime 2023 2 1, 411);
            (mk_datetime 2023 2 2, 412)])
    (Table [(mk_datetime 2023 1 1, 0); (mk_datetime 2023 2 1, 1);
            (mk_datetime 2023 2 2, 2)]).

(** ** Reports, counts and the closing checks of the generator *)

(** March is [xs[59:90]]. *)
Definition mar {A} (xs : list A) : list A := slice 59 90 xs.

(** The verifier printed [k] more lines when it returns, and at most
    [k] when it raises. *)
Definition prints {A} (m : V A) (k : nat) : Prop :=
  forall out, exists more,
    fst (m out) = out ++ more /\
    match snd (m out) with
    | inr _ => length more = k
    | inl _ => (length more <= k)%nat
    end.

(** The same, with fewer than [k] lines when it raises. *)
Definition prints_all {A} (m : V A) (k : nat) : Prop :=
  forall out, exists more,
    fst (m out) = out ++ more /\
    match snd (m out) with
    | inr _ => length more = k
    | inl _ => (length more < k)%nat
    end.

(** A day with precipitation above 5 and air quality above 100, on the
    values as the verifier reads them. *)
Definition joint_event (pa : Q * Q) : bool :=
  Qlt_bool 5 (fst pa) && Qlt_bool 100 (snd pa).

(** The five status lines of a run that reaches its end on the tables
    [t], [a], [c] and [p], in terms of the rows selected by position:
    [date] is the date the third block finds. *)
Definition report {np : NumPy} (t a c p : list (datetime * Q))
    (date : datetime) : list status :=
  [ t1_check (series_var (in_month 2 t t)) (series_var (in_month 2 t a))
      (series_var (in_month 2 t c)) (series_var (in_month 2 t p));
    t2_check (np_corrcoef (in_month 1 t t) (in_month 1 t a))
      (np_corrcoef (in_month 1 t t) (in_month 1 t c))
      (np_corrcoef (in_month 1 t t) (in_month 1 t p));
    t3_check date;
    t4_check (float_sub (mean (in_month 3 t t)) (mean (in_month 1 t t)))
      (float_sub (mean (in_month 3 t c)) (mean (in_month 1 t c)));
    t5_check (length (filter joint_event
                        (combine (in_month 2 t p) (in_month 2 t a)))) ].

(** [np.argmax] on a list of integers: the first position of the
    maximum ([best_i] and [best] are the position and the value kept so
    far, [i] the position of the head of [xs]). *)
Fixpoint argmax_from (best_i : nat) (best : Z) (i : nat) (xs : list Z)
    : nat :=
  match xs with
  | [] => best_i
  | x :: xs' =>
      if (best <? x)%Z then argmax_from i x (S i) xs'
      else argmax_from best_i best (S i) xs'
  end.

Definition np_argmax (xs : list Z) : nat :=
  match xs with
  | [] => 0%nat
  | x :: xs' => argmax_from 0 x 1 xs'
  end.

(** The five status lines in terms of the lists the generator holds in
    memory and of the statistics of its own closing report: the slices
    [xs[31:59]], [xs[:31]] and [xs[59:90]], [dates[np.argmax(aqi)]] and
    its count of joint events. *)
Definition generator_report {np : NumPy} (d : series) : list status :=
  [ t1_check (series_var (feb (temperature d)))
      (series_var (feb (aqi_values d)))
      (series_var (feb (co2 d))) (series_var (feb (precipitation d)));
    t2_check (np_corrcoef (jan (temperature d)) (jan (aqi_values d)))
      (np_corrcoef (jan (temperature d)) (jan (co2 d)))
      (np_corrcoef (jan (temperature d)) (jan (precipitation d)));
    t3_check (nth (np_argmax (aqi d)) dates start_date);
    t4_check (float_sub (mean (mar (temperature d)))
                        (mean (jan (temperature d))))
      (float_sub (mean (mar (co2 d))) (mean (jan (co2 d))));
    t5_check (generator_t5_count d) ].

(** ** More of the second verifier *)

Section MoreTaskAnswers.

Context {np : NumPy}.

(** [max(xs, key=...)] with float keys: the first of the largest; a
    not-a-number key never replaces the one kept. *)
Fixpoint max_by_key {A} (best : A * float) (xs : list (A * float))
    : A * float :=
  match xs with
  | [] => best
  | x :: xs' =>
      if float_gt (snd x) (snd best) then max_by_key x xs'
      else max_by_key best xs'
  end.

(** [Series.std()]: the square root of [Series.var()] *)
Definition series_std (xs : list Q) : float :=
  option_map np_sqrt (series_var xs).

(** Task 1: the variable with the largest February standard deviation,
    the first one in the order temperature, air quality, CO2,
    precipitation. *)
Definition verify_task_1 (data : list row) : variable :=
  let feb_data := between (mk_datetime 2023 2 1) (mk_datetime 2023 3 1) data in
  let std v := series_std (map (col v) feb_data) in
  fst (max_by_key (Temperature, std Temperature)
         [(AQI, std AQI); (CO2, std CO2); (Precipitation, std Precipitation)]).

(** The key of task 4: [slope if r2 > 0.5 else -999]. *)
Definition trend_key (trend : Q * Q) : float :=
  let (slope, r_value) := trend in
  let r_squared := r_value * r_value in
  Some (if Qlt_bool 0.5 r_squared then slope else -999).

(** Task 4: the variable with the largest key over January to March;
    [linregress] raises a [ValueError] where it has no result. *)
Definition verify_task_4 (data : list row) : error + variable :=
  let jan_mar_data :=
    between (mk_datetime 2023 1 1) (mk_datetime 2023 4 1) data in
  let x := map float_of_nat (seq 0 (length jan_mar_data)) in
  let trend v := linregress x (map (col v) jan_mar_data) in
  match trend Temperature, trend AQI, trend CO2, trend Precipitation with
  | Some t, Some a, Some c, Some p =>
      inr (fst (max_by_key (Temperature, trend_key t)
                  [(AQI, trend_key a); (CO2, trend_key c);
                   (Precipitation, trend_key p)]))
  | _, _, _, _ => inl ValueError
  end.

End MoreTaskAnswers.


(** * Properties *)

(** ** Python built-ins *)

Lemma Qlt_bool_iff (x y : Q) : Qlt_bool x y = true <-> x < y.
Proof.
  unfold Qlt_bool. rewrite negb_true_iff.
  split; intro H.
  - apply Qnot_le_lt. intro L. apply Qle_bool_iff in L. congruence.
  - destruct (Qle_bool y x) eqn:E; [|reflexivity].
    apply Qle_bool_iff in E. exfalso. exact (Qlt_not_le _ _ H E).
Qed.

Lemma Qlt_bool_false_iff (x y : Q) : Qlt_bool x y = false <-> y <= x.
Proof.
  unfold Qlt_bool. rewrite negb_false_iff. apply Qle_bool_iff.
Qed.

Lemma py_max_ge_l (a b : Q) : a <= py_max a b.
Proof.
  unfold py_max. destruct (Qlt_bool a b) eqn:E.
  - apply Qlt_bool_iff in E. apply Qlt_le_weak, E.
  - apply Qle_refl.
Qed.

Lemma py_max_ge_r (a b : Q) : b <= py_max a b.
Proof.
  unfold py_max. destruct (Qlt_bool a b) eqn:E.
  - apply Qle_refl.
  - apply Qlt_bool_false_iff, E.
Qed.

Lemma py_int_lower (k : Z) (x : Q) :
  (0 <= k)%Z -> inject_Z k <= x -> (k <= py_int x)%Z.
Proof.
  intros Hk H. unfold py_int. destruct x as [n d]. unfold Qle in H. simpl in *.
  apply Z.quot_le_lower_bound; lia.
Qed.

Create HintDb gen.
#[local] Hint Resolve py_max_ge_l py_max_ge_r : gen.

(** ** The [for ... in enumerate(...)] loop *)

Section Loops.

Context {np : NumPy} {A B : Type}.

Variable body : nat -> A -> M B.

Lemma for_enumerate_length (xs : list A) : forall i0 s,
  length (fst (for_enumerate body i0 xs s)) = length xs.
Proof.
  induction xs as [|x xs IH]; intros i0 s; simpl; [reflexivity|].
  unfold bind, ret. destruct (body i0 x s) as [y s1].
  specialize (IH (S i0) s1).
  destruct (for_enumerate body (S i0) xs s1) as [ys s2]. simpl in *.
  now rewrite IH.
Qed.

(** Whatever every run of the body guarantees holds of every element of
    the list the loop builds. *)
Lemma for_enumerate_Forall (P : B -> Prop) (xs : list A) :
  (forall i x s, In x xs -> P (fst (body i x s))) ->
  forall i0 s, Forall P (fst (for_enumerate body i0 xs s)).
Proof.
  induction xs as [|x xs IH]; intros HP i0 s; simpl; [constructor|].
  unfold bind, ret.
  pose proof (HP i0 x s (or_introl eq_refl)) as Hy.
  destruct (body i0 x s) as [y s1].
  assert (IH' : Forall P (fst (for_enumerate body (S i0) xs s1))).
  { apply IH. intros i x' s' Hin. apply HP. now right. }
  destruct (for_enumerate body (S i0) xs s1) as [ys s2]. simpl in *.
  now constructor.
Qed.

(** The element at position [k] is the result of the body at index
    [i0 + k], on the [k]-th input, in the state the loop had reached. *)
Lemma for_enumerate_nth (xs : list A) : forall k x i0 s,
  nth_error xs k = Some x ->
  exists s', nth_error (fst (for_enumerate body i0 xs s)) k
             = Some (fst (body (i0 + k)%nat x s')).
Proof.
  induction xs as [|x0 xs IH]; intros k x i0 s Hk.
  - destruct k; discriminate.
  - simpl. unfold bind, ret.
    destruct k as [|k]; simpl in Hk.
    + injection Hk as ->. exists s. rewrite Nat.add_0_r.
      destruct (body i0 x s) as [y s1].
      destruct (for_enumerate body (S i0) xs s1) as [ys s2]. reflexivity.
    + destruct (body i0 x0 s) as [y s1].
      destruct (IH k x (S i0) s1 Hk) as [s' Hs'].
      exists s'. destruct (for_enumerate body (S i0) xs s1) as [ys s2].
      simpl in *. rewrite Hs'. now rewrite Nat.add_succ_r.
Qed.

End Loops.

(** ** What each loop body guarantees, whatever is drawn *)

Section Bodies.

Context {np : NumPy} {laws : NumPyLaws np}.

(** Unfolds one run of a loop body down to the draws it makes. *)
Ltac run_body :=
  unfold bind, ret, np_random_normal, np_random_uniform,
    np_random_exponential, np_random_random;
  repeat match goal with
  | |- context [if ?c then _ else _] => destruct c eqn:?
  | |- context [random_sample ?s] => destruct (random_sample s) as [? ?]
  | |- context [standard_normal ?s] => destruct (standard_normal s) as [? ?]
  | |- context [standard_exponential ?s] =>
      destruct (standard_exponential s) as [? ?]
  end; simpl fst.

Lemma temperature_body_nonneg (i : nat) (date : datetime) (s : rng) :
  0 <= fst (temperature_body i date s).
Proof. unfold temperature_body. run_body; auto with gen. Qed.

Lemma co2_body_range (i : nat) (date : datetime) (s : rng) :
  385 <= fst (co2_body i date s).
Proof. unfold co2_body. run_body; auto with gen. Qed.

Lemma precipitation_body_nonneg (i : nat) (date : datetime) (s : rng) :
  0 <= fst (precipitation_body i date s).
Proof. unfold precipitation_body. run_body; auto with gen. Qed.

Lemma aqi_body_floor (temperature : list Q) (i : nat) (date : datetime)
    (s : rng) :
  (30 <= fst (aqi_body temperature i date s))%Z.
Proof.
  unfold aqi_body. run_body; (apply py_int_lower; [lia|]);
    try apply py_max_ge_l.
  eapply Qle_trans; [|apply py_max_ge_r]. apply py_max_ge_l.
Qed.

(** The two forced February days of the air-quality loop. *)
Lemma aqi_body_forced (temperature : list Q) (i : nat) (date : datetime)
    (s : rng) :
  month date = 2%Z -> py_in (day date) [12; 18]%Z = true ->
  (105 <= fst (aqi_body temperature i date s))%Z.
Proof.
  intros Hm Hd. unfold aqi_body. rewrite Hm, Hd. simpl Z.eqb. cbv iota.
  run_body. apply py_int_lower; [lia|]. apply py_max_ge_l.
Qed.

(** The two forced February days of the precipitation loop:
    [np.random.uniform(6, 15)]. *)
Lemma precipitation_body_forced (i : nat) (date : datetime) (s : rng) :
  month date = 2%Z -> py_in (day date) [12; 18]%Z = true ->
  6 <= fst (precipitation_body i date s) /\
  fst (precipitation_body i date s) < 15.
Proof.
  intros Hm Hd. unfold precipitation_body. rewrite Hm, Hd. simpl andb. cbv iota.
  unfold bind, ret, np_random_uniform.
  pose proof (random_sample_range s) as [H0 H1].
  destruct (random_sample s) as [u s']. simpl in *.
  assert (L : 6 <= 6 + (15 - 6) * u) by lra.
  assert (U : 6 + (15 - 6) * u < 15) by lra.
  unfold py_max. destruct (Qlt_bool 0 (6 + (15 - 6) * u)) eqn:E.
  - split; assumption.
  - apply Qlt_bool_false_iff in E. lra.
Qed.

End Bodies.

(** ** The generated series, for any NumPy *)

Section Generated.

Context {np : NumPy}.

(** The four lists are the results of the four loops, run one after the
    other from the seeded state. *)
Lemma generate_loops (s0 : rng) :
  exists s1 s2 s3 : rng,
    temperature (generate s0)
      = fst (for_enumerate temperature_body 0 dates (np_seed 42)) /\
    aqi (generate s0)
      = fst (for_enumerate (aqi_body (temperature (generate s0))) 0 dates s1) /\
    co2 (generate s0) = fst (for_enumerate co2_body 0 dates s2) /\
    precipitation (generate s0)
      = fst (for_enumerate precipitation_body 0 dates s3).
Proof.
  unfold generate, build_series, np_random_seed, bind, ret.
  destruct (for_enumerate temperature_body 0 dates (np_seed 42))
    as [t s1] eqn:Et.
  destruct (for_enumerate (aqi_body t) 0 dates s1) as [a s2] eqn:Ea.
  destruct (for_enumerate co2_body 0 dates s2) as [c s3] eqn:Ec.
  destruct (for_enumerate precipitation_body 0 dates s3) as [p s4] eqn:Ep.
  exists s1, s2, s3. cbn [fst temperature aqi co2 precipitation].
  rewrite Ea, Ec, Ep. auto.
Qed.

Lemma dates_length : length dates = 100%nat.
Proof. reflexivity. Qed.

(** Each loop appends one value per date. *)
Lemma generate_lengths (s0 : rng) :
  length (temperature (generate s0)) = length dates /\
  length (aqi (generate s0)) = length dates /\
  length (co2 (generate s0)) = length dates /\
  length (precipitation (generate s0)) = length dates.
Proof.
  destruct (generate_loops s0) as (s1 & s2 & s3 & Et & Ea & Ec & Ep).
  rewrite Ea, Ec, Ep, Et.
  repeat split; apply for_enumerate_length.
Qed.

(** C6.  The generator produces four series of 100 values each (one per
    date of the horizon); every temperature, CO2 and precipitation value
    is non-negative, and every air-quality value is a non-negative
    integer.  This holds from any interpreter state and for any stream of
    random draws. *)
Theorem generate_shape (s0 : rng) :
  let d := generate s0 in
  (length (temperature d) = 100 /\ length (aqi d) = 100 /\
   length (co2 d) = 100 /\ length (precipitation d) = 100)%nat /\
  Forall (fun v : Q => 0 <= v) (temperature d) /\
  Forall (fun v : Z => (0 <= v)%Z) (aqi d) /\
  Forall (fun v : Q => 0 <= v) (co2 d) /\
  Forall (fun v : Q => 0 <= v) (precipitation d).
Proof.
  intro d. subst d.
  destruct (generate_loops s0) as (s1 & s2 & s3 & Et & Ea & Ec & Ep).
  rewrite Ea, Ec, Ep, Et.
  repeat split; try (rewrite for_enumerate_length; apply dates_length).
  - apply for_enumerate_Forall. intros. apply temperature_body_nonneg.
  - apply for_enumerate_Forall. intros i x s _.
    pose proof (aqi_body_floor
      (fst (for_enumerate temperature_body 0 dates (np_seed 42))) i x s).
    lia.
  - apply for_enumerate_Forall. intros i x s _.
    apply Qle_trans with 385; [discriminate | apply co2_body_range].
  - apply for_enumerate_Forall. intros. apply precipitation_body_nonneg.
Qed.

(** The script seeds the global generator before its first draw, so the
    state the interpreter was in before does not reach the data. *)
Lemma generate_from_seed (s0 s0' : rng) : generate s0 = generate s0'.
Proof. reflexivity. Qed.

(** C9.  Two runs of the generator, from whatever states the interpreter
    is in, produce the same value at every position of the four series;
    hence the same files, the same February count, the same output of
    [verify_tasks] on those files and the same answers of the second
    verifier. *)
Theorem generate_deterministic (s0 s0' : rng) :
  generate s0 = generate s0' /\
  persist (generate s0) = persist (generate s0') /\
  generator_t5_count (generate s0) = generator_t5_count (generate s0') /\
  verify_tasks (persist (generate s0))
    = verify_tasks (persist (generate s0')) /\
  verify_task_6 (joined (generate s0))
    = verify_task_6 (joined (generate s0')).
Proof.
  rewrite (generate_from_seed s0 s0'). repeat split; reflexivity.
Qed.

End Generated.

(** ** Counting the joint February events *)

Lemma filter_one_hit {A} (f : A -> bool) (l : list A) :
  forall i x, nth_error l i = Some x -> f x = true ->
  (1 <= length (filter f l))%nat.
Proof.
  induction l as [|a l IH]; intros [|i] x Hi Hx; simpl in *; try discriminate.
  - injection Hi as ->. rewrite Hx. simpl. lia.
  - specialize (IH i x Hi Hx). destruct (f a); simpl; lia.
Qed.

Lemma filter_two_hits {A} (f : A -> bool) (l : list A) :
  forall i j x y, (i < j)%nat ->
  nth_error l i = Some x -> nth_error l j = Some y ->
  f x = true -> f y = true ->
  (2 <= length (filter f l))%nat.
Proof.
  induction l as [|a l IH]; intros i j x y Hij Hi Hj Hx Hy.
  - destruct i; discriminate.
  - destruct j as [|j]; [lia|]. simpl in Hj.
    destruct i as [|i]; simpl in Hi.
    + injection Hi as ->. simpl. rewrite Hx. simpl.
      pose proof (filter_one_hit f l j y Hj Hy). lia.
    + assert (Hij' : (i < j)%nat) by lia.
      specialize (IH i j x y Hij' Hi Hj Hx Hy).
      simpl. destruct (f a); simpl; lia.
Qed.

Lemma nth_error_combine_some {A B} (l1 : list A) :
  forall (l2 : list B) i x y,
  nth_error l1 i = Some x -> nth_error l2 i = Some y ->
  nth_error (combine l1 l2) i = Some (x, y).
Proof.
  induction l1 as [|a l1 IH]; intros [|b l2] [|i] x y H1 H2;
    simpl in *; try discriminate.
  - now injection H1 as ->; injection H2 as ->.
  - now apply IH.
Qed.

Lemma nth_error_slice {A} (a b i : nat) (l : list A) :
  (i < b - a)%nat -> nth_error (slice a b l) i = nth_error l (a + i).
Proof.
  intro H. unfold slice. rewrite nth_error_firstn.
  apply Nat.ltb_lt in H. rewrite H. apply nth_error_skipn.
Qed.

Section ForcedDays.

Context {np : NumPy} {laws : NumPyLaws np}.

Lemma generate_forced (s0 : rng) (k : nat) (date : datetime) :
  nth_error dates k = Some date ->
  month date = 2%Z -> py_in (day date) [12; 18]%Z = true ->
  forced_event (generate s0) k.
Proof.
  intros Hk Hm Hd.
  destruct (generate_loops s0) as (s1 & s2 & s3 & _ & Ea & _ & Ep).
  destruct (for_enumerate_nth
              (aqi_body (temperature (generate s0))) dates k date 0 s1 Hk)
    as [sa Ha].
  destruct (for_enumerate_nth precipitation_body dates k date 0 s3 Hk)
    as [sp Hp].
  rewrite <- Ea in Ha. rewrite <- Ep in Hp.
  eexists _, _. split; [exact Ha|]. split; [exact Hp|].
  split; [now apply aqi_body_forced|].
  now apply precipitation_body_forced.
Qed.

Lemma forced_event_hit (d : series) (k : nat) :
  (k < 28)%nat -> forced_event d (31 + k) ->
  exists pa, nth_error (combine (slice 31 59 (precipitation d))
                                (slice 31 59 (aqi d))) k = Some pa /\
             t5_hit pa = true.
Proof.
  intros Hk (a & p & Ha & Hp & La & Lp & _).
  exists (p, a). split.
  - apply nth_error_combine_some; rewrite nth_error_slice; auto.
  - unfold t5_hit. cbn [fst snd]. apply andb_true_iff. split.
    + apply Qlt_bool_iff. lra.
    + apply Z.ltb_lt. lia.
Qed.

(** C10.  Whatever is drawn, February 12 and February 18 (positions 42
    and 48) have an air-quality value of at least 105, hence above 100,
    and a precipitation drawn in [6, 15), hence above 5; so the count of
    February days with precipitation above 5 and air quality above 100 is
    at least 2 and is never 1. *)
Theorem forced_days_count (s0 : rng) :
  let d := generate s0 in
  nth_error dates 42 = Some (mk_datetime 2023 2 12) /\
  nth_error dates 48 = Some (mk_datetime 2023 2 18) /\
  forced_event d 42 /\ forced_event d 48 /\
  (2 <= generator_t5_count d)%nat /\ generator_t5_count d <> 1%nat.
Proof.
  intro d.
  assert (F42 : forced_event d 42) by
    (apply (generate_forced s0 42 (mk_datetime 2023 2 12)); reflexivity).
  assert (F48 : forced_event d 48) by
    (apply (generate_forced s0 48 (mk_datetime 2023 2 18)); reflexivity).
  assert (C : (2 <= generator_t5_count d)%nat).
  { destruct (forced_event_hit d 11) as (x & Hx & Fx); [lia | exact F42 |].
    destruct (forced_event_hit d 17) as (y & Hy & Fy); [lia | exact F48 |].
    unfold generator_t5_count.
    apply (filter_two_hits t5_hit _ 11 17 x y); auto. lia. }
  repeat split; try reflexivity; auto. lia.
Qed.

End ForcedDays.

(** ** Selection by a boolean mask *)

Lemma lookup_seq {A} (xs : list A) : forall k i,
  lookup (k + i) (combine (seq k (length xs)) xs) = nth_error xs i.
Proof.
  induction xs as [|x xs IH]; intros k i; simpl.
  - now destruct i.
  - destruct i as [|i].
    + rewrite Nat.add_0_r, Nat.eqb_refl. reflexivity.
    + replace (k + S i =? k)%nat with false
        by (symmetry; apply Nat.eqb_neq; lia).
      rewrite <- Nat.add_succ_comm. apply IH.
Qed.

Lemma lookup_range_index {A} (xs : list A) (i : nat) :
  lookup i (range_index xs) = nth_error xs i.
Proof. apply (lookup_seq xs 0 i). Qed.

(** When the mask has an entry for every label of the frame, [df[mask]]
    is the selection by position. *)
Lemma getitem_bool_select {A} (m : Series bool) :
  forall (rows : list A) (mask : list bool) (k : nat),
  (length rows <= length mask)%nat ->
  (forall i, (i < length mask)%nat -> lookup (k + i) m = nth_error mask i) ->
  getitem_bool m (combine (seq k (length rows)) rows)
  = inr (select mask (combine (seq k (length rows)) rows)).
Proof.
  induction rows as [|r rows IH]; intros mask k Hlen Hm.
  - destruct mask; reflexivity.
  - destruct mask as [|b mask]; simpl in Hlen; [lia|].
    cbn [length seq combine getitem_bool select].
    pose proof (Hm 0%nat ltac:(simpl; lia)) as H0.
    rewrite Nat.add_0_r in H0. cbn [nth_error] in H0. rewrite H0.
    rewrite (IH mask (S k)).
    + destruct b; reflexivity.
    + lia.
    + intros i Hi. rewrite Nat.add_succ_comm. apply (Hm (S i)). simpl. lia.
Qed.

Lemma getitem_bool_range_index {A} (mask : list bool) (rows : list A) :
  (length rows <= length mask)%nat ->
  getitem_bool (range_index mask) (range_index rows)
  = inr (select mask (range_index rows)).
Proof.
  intro H. apply getitem_bool_select; [exact H|].
  intros i _. apply lookup_range_index.
Qed.

(** A frame with more rows than the mask has a label the mask lacks. *)
Lemma getitem_bool_too_long {A} (m : Series bool) :
  forall (rows : list A) (k : nat),
  (exists i, (i < length rows)%nat /\ lookup (k + i) m = None) ->
  getitem_bool m (combine (seq k (length rows)) rows) = inl IndexingError.
Proof.
  induction rows as [|r rows IH]; intros k (i & Hi & Hl); simpl in Hi; [lia|].
  cbn [length seq combine getitem_bool].
  destruct i as [|i].
  - rewrite Nat.add_0_r in Hl. now rewrite Hl.
  - rewrite (IH (S k)).
    + now destruct (lookup k m) as [[|]|].
    + exists i. split; [lia|]. now rewrite Nat.add_succ_comm.
Qed.

Lemma column_combine {A B} (f : A -> B) (l : list nat) (rows : list A) :
  column f (combine l rows) = combine l (map f rows).
Proof.
  revert rows. induction l as [|i l IH]; intros [|r rows]; simpl;
    try reflexivity.
  f_equal. apply IH.
Qed.

Lemma column_range_index {A B} (f : A -> B) (rows : list A) :
  column f (range_index rows) = range_index (map f rows).
Proof. unfold range_index. rewrite column_combine, length_map. reflexivity. Qed.

Lemma select_combine_map {A B C} (g : B -> C) (mask : list bool) :
  forall (l : list A) (xs : list B),
  (length xs <= length l)%nat ->
  map (fun r => g (snd r)) (select mask (combine l xs)) = select mask (map g xs).
Proof.
  induction mask as [|b mask IH]; intros l xs H.
  - destruct (combine l xs), (map g xs); reflexivity.
  - destruct xs as [|x xs]; [now destruct l|].
    destruct l as [|a l]; simpl in H; [lia|].
    cbn [combine map select]. destruct b; cbn [map snd]; rewrite IH by lia;
      reflexivity.
Qed.

(** A month mask taken from the temperature table selects from a table
    that is not longer the values at the positions of that month. *)
Lemma masked_values_in_month (m : Z) (t rows : list (datetime * Q)) :
  (length rows <= length t)%nat ->
  masked_values (month_is m (range_index t)) (range_index rows)
  = inr (in_month m t rows).
Proof.
  intro H. unfold masked_values, month_is, in_month.
  rewrite column_range_index.
  rewrite getitem_bool_range_index by (rewrite length_map; exact H).
  unfold values, column. rewrite map_map. cbn [snd].
  unfold range_index.
  rewrite (select_combine_map snd) by (rewrite length_seq; lia).
  reflexivity.
Qed.

(** From a longer table the selection fails. *)
Lemma masked_values_too_long (m : Z) (t rows : list (datetime * Q)) :
  (length t < length rows)%nat ->
  masked_values (month_is m (range_index t)) (range_index rows)
  = inl IndexingError.
Proof.
  intro H. unfold masked_values, month_is.
  rewrite column_range_index. unfold range_index at 2.
  rewrite getitem_bool_too_long; [reflexivity|].
  exists (length t). split; [exact H|].
  rewrite lookup_range_index. apply nth_error_None.
  rewrite length_map. lia.
Qed.

(** ** The status lines of a run, in general *)

Section Lines.

Context {np : NumPy}.

Lemma appends_vret {A} (a : A) : appends (vret a).
Proof. intro out. exists []. simpl. now rewrite app_nil_r. Qed.

Lemma appends_eval {A} (r : error + A) : appends (eval r).
Proof. intro out. exists []. simpl. now rewrite app_nil_r. Qed.

Lemma appends_print_status (st : status) : appends (print_status st).
Proof. intro out. exists [st]. reflexivity. Qed.

Lemma appends_vbind {A B} (m : V A) (k : A -> V B) :
  appends m -> (forall a, appends (k a)) -> appends (vbind m k).
Proof.
  intros Hm Hk out. unfold vbind. destruct (Hm out) as [more1 H1].
  destruct (m out) as [out' [e|a]]; simpl in *.
  - now exists more1.
  - destruct (Hk a out') as [more2 H2]. exists (more1 ++ more2).
    rewrite H2, H1. now rewrite app_assoc.
Qed.

Ltac appends_tac :=
  repeat first
    [ apply appends_print_status | apply appends_eval | apply appends_vret
    | apply appends_vbind; [| intro] ].

(** On four tables, none of the last three longer than the temperature
    table, the first status line is the T1 test of the four variances
    [Series.var()] returns on the February selections, whatever happens
    later. *)
Lemma verify_tasks_t1 (t a c p : list (datetime * Q)) :
  (length a <= length t)%nat -> (length c <= length t)%nat ->
  (length p <= length t)%nat ->
  hd_error
    (fst (verify_tasks (mk_test_data (Table t) (Table a) (Table c) (Table p))))
  = Some (t1_check (series_var (in_month 2 t t)) (series_var (in_month 2 t a))
            (series_var (in_month 2 t c)) (series_var (in_month 2 t p))).
Proof.
  intros Ha Hc Hp.
  unfold verify_tasks, run, verify_tasks_script.
  cbn [temperature_csv air_quality_csv co2_csv precipitation_csv read_csv].
  unfold vbind at 1 2 3 4. unfold eval at 1 2 3 4.
  rewrite (masked_values_in_month 2 t t) by lia.
  rewrite (masked_values_in_month 2 t a) by exact Ha.
  rewrite (masked_values_in_month 2 t c) by exact Hc.
  rewrite (masked_values_in_month 2 t p) by exact Hp.
  unfold vbind at 1 2 3 4. unfold eval at 1 2 3 4.
  unfold vbind at 1. unfold print_status at 1.
  match goal with
  | |- context [?rest ([] ++ [?st])] =>
      assert (Hk : appends rest) by appends_tac;
      destruct (Hk ([] ++ [st])) as [more Hm];
      destruct (rest ([] ++ [st])) as [out' [e|u]]
  end; simpl in Hm; subst out'; reflexivity.
Qed.


Lemma exec_print_bind (st : status) (k : unit -> V unit)
    (out : list status) :
  exec (vbind (print_status st) k) out = exec (k tt) (out ++ [st]).
Proof. reflexivity. Qed.

Lemma exec_print (st : status) (out : list status) :
  exec (print_status st) out = (out ++ [st], None).
Proof. reflexivity. Qed.


End Lines.

(** ** The legacy stream and the data of the run *)

Lemma mt19937_next_double_range (b : MT19937.state) :
  0 <= fst (MT19937.mt19937_next_double b) /\
  fst (MT19937.mt19937_next_double b) < 1.
Proof.
  unfold MT19937.mt19937_next_double.
  destruct (MT19937.mt19937_next b) as [x b1] eqn:E1.
  destruct (MT19937.mt19937_next b1) as [y b2] eqn:E2.
  assert (Hx : (0 <= x < 2 ^ 32)%Z).
  { unfold MT19937.mt19937_next in E1. injection E1 as <- _.
    apply Z.mod_pos_bound. reflexivity. }
  assert (Hy : (0 <= y < 2 ^ 32)%Z).
  { unfold MT19937.mt19937_next in E2. injection E2 as <- _.
    apply Z.mod_pos_bound. reflexivity. }
  cbn [fst]. rewrite !Z.shiftr_div_pow2 by lia.
  assert (Ha : (0 <= x / 2 ^ 5 < 2 ^ 27)%Z).
  { split; [apply Z.div_pos; lia|]. apply Z.div_lt_upper_bound; lia. }
  assert (Hb : (0 <= y / 2 ^ 6 < 2 ^ 26)%Z).
  { split; [apply Z.div_pos; lia|]. apply Z.div_lt_upper_bound; lia. }
  unfold Qle, Qlt. cbn [Qnum Qden]. lia.
Qed.

Lemma numpy_legacy_with_laws (libm : Libm.t) :
  NumPyLaws (numpy_legacy_with libm).
Proof.
  constructor. intro s. cbn [random_sample numpy_legacy_with].
  unfold Legacy.legacy_double.
  pose proof (mt19937_next_double_range (Legacy.bit_generator s)) as H.
  destruct (MT19937.mt19937_next_double (Legacy.bit_generator s)).
  exact H.
Qed.

#[export] Instance numpy_legacy_laws : NumPyLaws numpy_legacy :=
  numpy_legacy_with_laws (Libm.fixed_point 64).

(** The fixed-point square root is the square root rounded down to the
    grid, and [fx_rnd] rounds down to the grid. *)
Lemma fx_sqrt_spec (p : Z) (x : Q) :
  (0 <= p)%Z -> 0 <= x ->
  let y := Libm.fx_sqrt p x in
  0 <= y /\ y * y <= x /\ x < (y + Libm.Q_of p 1) * (y + Libm.Q_of p 1).
Proof.
  intros Hp Hx y. subst y. unfold Libm.fx_sqrt, Libm.Q_of.
  destruct x as [n d]. unfold Qle in Hx. simpl in Hx.
  cbn [Qnum Qden]. rewrite Z.shiftl_mul_pow2 by lia.
  set (P := (2 ^ p)%Z). assert (HP : (0 < P)%Z) by (apply Z.pow_pos_nonneg; lia).
  assert (E : (2 ^ (2 * p) = P * P)%Z).
  { subst P. rewrite <- Z.pow_add_r by lia. f_equal. lia. }
  rewrite E.
  set (N := (n * (P * P) / Z.pos d)%Z).
  assert (HN : (0 <= N)%Z) by (apply Z.div_pos; nia).
  pose proof (Z.sqrt_spec N HN) as [Hlo Hhi].
  pose proof (Z.sqrt_nonneg N) as Hs.
  set (s := Z.sqrt N) in *.
  assert (Hdiv : (Z.pos d * N <= n * (P * P) < Z.pos d * (N + 1))%Z).
  { subst N. split.
    - apply Z.mul_div_le. lia.
    - rewrite Z.mul_add_distr_l, Z.mul_1_r.
      pose proof (Z.mod_pos_bound (n * (P * P)) (Z.pos d) ltac:(lia)).
      pose proof (Z.div_mod (n * (P * P)) (Z.pos d) ltac:(lia)). lia. }
  unfold Qle, Qlt, Qmult, Qplus. cbn [Qnum Qden].
  rewrite !Pos2Z.inj_mul, !Z2Pos.id by lia.
  repeat split.
  - lia.
  - nia.
  - nia.
Qed.

Lemma fx_rnd_spec (p : Z) (x : Q) :
  (0 <= p)%Z ->
  Libm.fx_rnd p x <= x /\ x < Libm.fx_rnd p x + Libm.Q_of p 1.
Proof.
  intros Hp. unfold Libm.fx_rnd, Libm.fix_of, Libm.Q_of.
  destruct x as [n d]. cbn [Qnum Qden]. rewrite Z.shiftl_mul_pow2 by lia.
  set (P := (2 ^ p)%Z).
  assert (HP : (0 < P)%Z) by (apply Z.pow_pos_nonneg; lia).
  set (N := (n * P / Z.pos d)%Z).
  assert (Hdiv : (Z.pos d * N <= n * P < Z.pos d * (N + 1))%Z).
  { subst N. split.
    - apply Z.mul_div_le. lia.
    - rewrite Z.mul_add_distr_l, Z.mul_1_r.
      pose proof (Z.mod_pos_bound (n * P) (Z.pos d) ltac:(lia)).
      pose proof (Z.div_mod (n * P) (Z.pos d) ltac:(lia)). lia. }
  unfold Qle, Qlt, Qplus. cbn [Qnum Qden].
  rewrite ?Pos2Z.inj_mul, !Z2Pos.id by lia.
  split; nia.
Qed.

Lemma forallb_Forall {A} (p : A -> bool) (P : A -> Prop) (l : list A) :
  (forall x, p x = true -> P x) -> forallb p l = true -> Forall P l.
Proof.
  intros HpP H. apply Forall_forall. intros x Hx.
  apply HpP. rewrite forallb_forall in H. now apply H.
Qed.

(** From any interpreter state, the script ends in [seeded_run]. *)
Lemma script_seeded (s0 : Legacy.aug_state) :
  (_ <- np_random_seed (np := numpy_legacy) 42 ;; build_series) s0
  = seeded_run.
Proof. vm_compute. reflexivity. Qed.

Lemma generate_seeded (s0 : Legacy.aug_state) :
  generate (np := numpy_legacy) s0 = seeded_series.
Proof. unfold generate. now rewrite script_seeded. Qed.

(** Every rejection loop of the run ends within the bound put on it: the
    four loops return, and no deviate is a placeholder. *)
Lemma generate_terminates (s0 : Legacy.aug_state) :
  Legacy.out_of_fuel
    (snd ((_ <- np_random_seed 42 ;; build_series) s0)) = false.
Proof. rewrite script_seeded. reflexivity. Qed.

(** The conclusions do not hang on the last bits of [log], [sqrt] and
    [sin]: with 32 fractional bits instead of 64 the run has the same
    air-quality integers, the same February count, the same status lines
    and the same answers of the second verifier. *)
Lemma generate_coarse (s0 : Legacy.aug_state) :
  generate (np := numpy_legacy_coarse) s0 = coarse_series.
Proof. vm_compute. reflexivity. Qed.

Lemma coarse_model_agrees (s0 : Legacy.aug_state) :
  let d := generate (np := numpy_legacy_coarse) s0 in
  aqi d = aqi seeded_series /\
  generator_t5_count d = generator_t5_count seeded_series /\
  verify_tasks (np := numpy_legacy_coarse) (persist d)
    = ([PASS; FAIL; PASS; FAIL; PASS], None) /\
  fst (verify_task_2 (np := numpy_legacy_coarse) (joined d)) = CO2 /\
  verify_task_3 (joined d) = inr (mk_datetime 2023 1 21) /\
  verify_task_6 (np := numpy_legacy_coarse) (joined d) = [Temperature].
Proof.
  intro d. subst d. rewrite (generate_coarse s0).
  repeat match goal with |- _ /\ _ => split end; vm_compute; reflexivity.
Qed.

(** ** The tests behind the status lines *)

Lemma status_of_PASS (b : bool) : status_of b = PASS <-> b = true.
Proof. destruct b; simpl; split; intro; congruence. Qed.

(** On numbers, the T1 test passes exactly when the air-quality variance
    is strictly above each of the three others. *)
Lemma t1_check_spec (t a c p : Q) :
  t1_check (Some t) (Some a) (Some c) (Some p) = PASS
  <-> t < a /\ c < a /\ p < a.
Proof.
  unfold t1_check, float_max3, float_gt. rewrite status_of_PASS.
  destruct (Qlt_bool t c) eqn:Etc;
    [apply Qlt_bool_iff in Etc | apply Qlt_bool_false_iff in Etc].
  - destruct (Qlt_bool c p) eqn:Ecp;
      [apply Qlt_bool_iff in Ecp | apply Qlt_bool_false_iff in Ecp];
      rewrite Qlt_bool_iff; split; intros; repeat split; lra.
  - destruct (Qlt_bool t p) eqn:Etp;
      [apply Qlt_bool_iff in Etp | apply Qlt_bool_false_iff in Etp];
      rewrite Qlt_bool_iff; split; intros; repeat split; lra.
Qed.


(** The T3 test passes exactly on a January date with a day of the month
    from 20 to 25. *)
Lemma t3_check_spec (d : datetime) :
  t3_check d = PASS <-> month d = 1%Z /\ (20 <= day d <= 25)%Z.
Proof.
  unfold t3_check. rewrite status_of_PASS, !andb_true_iff.
  rewrite Z.eqb_eq, !Z.leb_le. tauto.
Qed.

(** [a > b] on floats holds exactly when both are numbers and the first
    is strictly greater. *)
Lemma float_gt_spec (a b : float) :
  float_gt a b = true <-> exists x y : Q, a = Some x /\ b = Some y /\ y < x.
Proof.
  unfold float_gt. split.
  - destruct a as [x|], b as [y|]; try discriminate.
    intro H. exists x, y. rewrite <- Qlt_bool_iff. auto.
  - intros (x & y & -> & -> & H). now apply Qlt_bool_iff.
Qed.

(** A value within one percent of [x]. *)
Lemma within_percent (v x : Q) :
  Qabs (v - x) <= x / 100 -> - (x * 0.01) <= v - x /\ v - x <= x * 0.01.
Proof.
  intro H. apply Qabs_Qle_condition in H.
  assert (E : x / 100 == x * 0.01) by field.
  rewrite E in H. exact H.
Qed.

(** The status lines [verify_tasks] prints on the files of the run. *)
Lemma verify_tasks_seeded :
  verify_tasks (np := numpy_legacy) (persist seeded_series)
  = ([PASS; FAIL; PASS; FAIL; PASS], None).
Proof. vm_compute. reflexivity. Qed.


(** Replaces the closed term [t] by its value, computing it once. *)
Ltac eval_once t :=
  let v := eval vm_compute in t in
  let x := fresh "x" in
  let E := fresh "E" in
  set (x := t) in *;
  assert (E : x = v) by (subst x; vm_compute; reflexivity);
  clearbody x; subst x.

(** Evaluates every statistic of the goal, each once. *)
Ltac eval_statistics :=
  repeat match goal with
  | |- context [var ?x] => eval_once (var x)
  | |- context [np_var ?x] => eval_once (np_var x)
  | |- context [@np_corrcoef ?n ?x ?y] => eval_once (@np_corrcoef n x y)
  | |- context [@linregress ?n ?x ?y] => eval_once (@linregress n x y)
  | |- context [sum_dev ?x ?y] => eval_once (sum_dev x y)
  end.

Ltac split_all := repeat match goal with |- _ /\ _ => split end.

(** The model against NumPy's published outputs after
    [np.random.seed(42)]: the first values of [np.random.random()], of
    [np.random.normal()] (the second is the cached deviate) and of
    [np.random.exponential()]; and the fixed-point functions against the
    binary64 values of the C library at some arguments, among them the
    largest argument of the sine in the run. *)
Lemma legacy_stream_anchors :
  fst (random_sample (np_seed 42)) == 3373557479352566 / 2 ^ 53 /\
  close_to (1 / 10 ^ 15) (draws random_sample 3 (np_seed 42))
    [0.3745401188473625; 0.9507143064099162; 0.7319939418114051] = true /\
  close_to (1 / 10 ^ 15) (draws standard_normal 5 (np_seed 42))
    [0.4967141530112327; -0.13826430117118466; 0.6476885381006925;
     1.5230298564080254; -0.23415337472333597] = true /\
  close_to (1 / 10 ^ 15) (draws standard_exponential 1 (np_seed 42))
    [0.4692680899768591] = true /\
  close_to (1 / 10 ^ 15)
    [Libm.fx_log 64 2; Libm.fx_log 64 0.001; Libm.fx_sqrt 64 2;
     Libm.fx_sqrt 64 3]
    [0.6931471805599453; -6.907755278982137; 1.4142135623730951;
     1.7320508075688772] = true /\
  close_to (1 / 10 ^ 15)
    (map (Libm.fx_sin 64) [1 / 7; 1; 50 / 7; 99 / 7])
    [0.14237172979226365; 0.8414709848078965; 0.7576284153927202;
     0.9999838108459708] = true.
Proof. split_all; vm_compute; reflexivity. Qed.

(** Without the call to [np.random.seed] the data would depend on the
    state the interpreter is in: already the first temperature differs
    between two states. *)
Lemma unseeded_loop_depends_on_state :
  ~ fst (temperature_body 0 start_date (np_seed 42))
    == fst (temperature_body 0 start_date (np_seed 43)).
Proof. vm_compute. discriminate. Qed.

(** C1.  In the run, the February variance of the air-quality series is
    strictly greater than the February variance of the temperature, the
    CO2 and the precipitation series, for the sample variance the
    verifier takes and for the population variance the generator prints.
    On the files of the run the February rows of the verifier, those at
    the positions where the temperature file has a February date, are
    the generator's values 31 to 58; the T1 line is the T1 test of their
    variances and is PASS, and it stays PASS however [Series.var()]
    rounds, as long as it returns each of the four variances within one
    percent.  And for any NumPy, on any four tables none of
    which is longer than the temperature table, when [Series.var()]
    returns numbers on the February rows, the T1 line is printed and is
    PASS exactly when the variance returned for the air-quality table is
    strictly above each of the three others. *)
Theorem february_variance_ranking (s0 : Legacy.aug_state) :
  let d := generate (np := numpy_legacy) s0 in
  let vt := var (feb (temperature d)) in
  let va := var (feb (aqi_values d)) in
  let vc := var (feb (co2 d)) in
  let vp := var (feb (precipitation d)) in
  (float_gt va vt = true /\ float_gt va vc = true /\ float_gt va vp = true) /\
  (float_gt (np_var (feb (aqi_values d))) (np_var (feb (temperature d))) = true /\
   float_gt (np_var (feb (aqi_values d))) (np_var (feb (co2 d))) = true /\
   float_gt (np_var (feb (aqi_values d))) (np_var (feb (precipitation d))) = true) /\
  (let rows := combine dates in
   in_month 2 (rows (temperature d)) (rows (temperature d))
     = feb (temperature d) /\
   in_month 2 (rows (temperature d)) (rows (aqi_values d))
     = feb (aqi_values d) /\
   in_month 2 (rows (temperature d)) (rows (co2 d)) = feb (co2 d) /\
   in_month 2 (rows (temperature d)) (rows (precipitation d))
     = feb (precipitation d)) /\
  hd_error (fst (verify_tasks (persist d))) = Some (t1_check vt va vc vp) /\
  t1_check vt va vc vp = PASS /\
  (forall sv : list Q -> option Q,
     (forall xs,
        In xs [feb (temperature d); feb (aqi_values d); feb (co2 d);
               feb (precipitation d)] ->
        exists v x : Q,
          sv xs = Some v /\ var xs = Some x /\ Qabs (v - x) <= x / 100) ->
     hd_error
       (fst (verify_tasks (np := with_series_var numpy_legacy sv)
               (persist d)))
     = Some PASS) /\
  (forall (np : NumPy) (t a c p : list (datetime * Q)) (xt xa xc xp : Q),
     (length a <= length t)%nat -> (length c <= length t)%nat ->
     (length p <= length t)%nat ->
     series_var (in_month 2 t t) = Some xt ->
     series_var (in_month 2 t a) = Some xa ->
     series_var (in_month 2 t c) = Some xc ->
     series_var (in_month 2 t p) = Some xp ->
     exists st : status,
       hd_error
         (fst (verify_tasks (np := np)
                 (mk_test_data (Table t) (Table a) (Table c) (Table p))))
       = Some st /\
       (st = PASS <-> xt < xa /\ xc < xa /\ xp < xa)).
Proof.
  intros d vt va vc vp. subst d vt va vc vp.
  rewrite (generate_seeded s0), verify_tasks_seeded.
  cbv zeta. split_all;
    lazymatch goal with
    | |- forall _, _ => idtac
    | |- in_month _ _ _ = _ => vm_compute; reflexivity
    | |- _ => eval_statistics; vm_compute; reflexivity
    end.
  - assert (Ft : float_gt (Some 6) (var (feb (temperature seeded_series)))
                 = true) by (eval_statistics; vm_compute; reflexivity).
    assert (Fa : float_gt (var (feb (aqi_values seeded_series))) (Some 550)
                 = true) by (eval_statistics; vm_compute; reflexivity).
    assert (Fc : float_gt (Some 52) (var (feb (co2 seeded_series))) = true)
      by (eval_statistics; vm_compute; reflexivity).
    assert (Fp : float_gt (Some 7) (var (feb (precipitation seeded_series)))
                 = true) by (eval_statistics; vm_compute; reflexivity).
    intros sv Hsv.
    destruct (Hsv _ (or_introl eq_refl)) as (vt & xt & Et & Xt & Bt).
    destruct (Hsv _ (or_intror (or_introl eq_refl)))
      as (va & xa & Ea & Xa & Ba).
    destruct (Hsv _ (or_intror (or_intror (or_introl eq_refl))))
      as (vc & xc & Ec & Xc & Bc).
    destruct (Hsv _ (or_intror (or_intror (or_intror (or_introl eq_refl)))))
      as (vp & xp & Ep & Xp & Bp).
    rewrite Xt in Ft. rewrite Xa in Fa. rewrite Xc in Fc. rewrite Xp in Fp.
    apply Qlt_bool_iff in Ft, Fa, Fc, Fp.
    assert (It : in_month 2 (combine dates (temperature seeded_series))
                   (combine dates (temperature seeded_series))
                 = feb (temperature seeded_series))
      by (vm_compute; reflexivity).
    assert (Ia : in_month 2 (combine dates (temperature seeded_series))
                   (combine dates (map inject_Z (aqi seeded_series)))
                 = feb (aqi_values seeded_series))
      by (vm_compute; reflexivity).
    assert (Ic : in_month 2 (combine dates (temperature seeded_series))
                   (combine dates (co2 seeded_series))
                 = feb (co2 seeded_series))
      by (vm_compute; reflexivity).
    assert (Ip : in_month 2 (combine dates (temperature seeded_series))
                   (combine dates (precipitation seeded_series))
                 = feb (precipitation seeded_series))
      by (vm_compute; reflexivity).
    unfold persist, to_csv.
    rewrite (verify_tasks_t1 (np := with_series_var numpy_legacy sv))
      by (apply Nat.leb_le; vm_compute; reflexivity).
    cbn [series_var with_series_var].
    rewrite It, Ia, Ic, Ip, Et, Ea, Ec, Ep. f_equal.
    apply t1_check_spec.
    apply within_percent in Bt, Ba, Bc, Bp.
    repeat split; lra.
  - intros np t a c p xt xa xc xp Ha Hc Hp Et Ea Ec Ep.
    exists (t1_check (Some xt) (Some xa) (Some xc) (Some xp)).
    split; [|apply t1_check_spec].
    rewrite (verify_tasks_t1 t a c p Ha Hc Hp), Et, Ea, Ec, Ep. reflexivity.
Qed.

(** C3.  In the run, the air-quality series attains its maximum, 156,
    first at position 20: no value is larger, every earlier value is
    strictly smaller.  Position 20 is January 21, a January date with a
    day of the month from 20 to 25.  Both verifiers report that date,
    and the T3 line is PASS. *)
Theorem aqi_maximum_date (s0 : Legacy.aug_state) :
  let d := generate (np := numpy_legacy) s0 in
  exists (k : nat) (m : Z) (date : datetime),
    nth_error (aqi d) k = Some m /\
    Forall (fun v => (v <= m)%Z) (aqi d) /\
    Forall (fun v => (v < m)%Z) (firstn k (aqi d)) /\
    nth_error dates k = Some date /\
    (month date = 1 /\ 20 <= day date <= 25)%Z /\
    idxmax (range_index (aqi_values d)) = inr k /\
    verify_task_3 (joined d) = inr date /\
    nth_error (fst (verify_tasks (persist d))) 2 = Some (t3_check date) /\
    t3_check date = PASS.
Proof.
  intro d. subst d. rewrite (generate_seeded s0), verify_tasks_seeded.
  exists 20%nat, 156%Z, (mk_datetime 2023 1 21).
  split; [reflexivity|].
  split; [apply (forallb_Forall (fun v => (v <=? 156)%Z));
          [intros x; apply Z.leb_le | reflexivity]|].
  split; [apply (forallb_Forall (fun v => (v <? 156)%Z));
          [intros x; apply Z.ltb_lt | reflexivity]|].
  split; [reflexivity|].
  split; [simpl; lia|].
  split_all; vm_compute; reflexivity.
Qed.


(** With two points or more, [linregress] is a function of the three
    sums of products of deviations. *)
Lemma linregress_sums {np : NumPy} (x y : list Q) :
  (1 < length x)%nat ->
  linregress x y
  = if Qeq_bool (sum_dev x x) 0 then None
    else Some (Qred (sum_dev x y / sum_dev x x),
               if Qeq_bool (sum_dev y y) 0 then 0
               else clip (sum_dev x y / np_sqrt (sum_dev x x * sum_dev y y))).
Proof.
  intro H. destruct x as [|a [|b x']]; simpl in H; try lia. reflexivity.
Qed.

(** C4.  In the run, over the 90 days of January to March, the
    least-squares line of temperature against the day index has a
    coefficient of determination above 0.70 and a positive slope, while
    CO2, air quality and precipitation each have a coefficient of
    determination of at most 0.70; the test of task 6 therefore holds for
    temperature and for no other variable, and the second verifier's
    list of clear trends is temperature alone. *)
Theorem clear_trend_is_temperature_only (s0 : Legacy.aug_state) :
  let d := generate (np := numpy_legacy) s0 in
  let data := jan_mar d in
  let x := day_index data in
  length data = 90%nat /\
  (0.70 < r_squared_exact x (map (col Temperature) data) /\
   0 < slope_exact x (map (col Temperature) data)) /\
  (r_squared_exact x (map (col CO2) data) <= 0.70 /\
   r_squared_exact x (map (col AQI) data) <= 0.70 /\
   r_squared_exact x (map (col Precipitation) data) <= 0.70) /\
  (clear_trend x data Temperature = true /\
   clear_trend x data CO2 = false /\
   clear_trend x data AQI = false /\
   clear_trend x data Precipitation = false) /\
  verify_task_6 (joined d) = [Temperature].
Proof.
  intros d data x. subst d data x. rewrite (generate_seeded s0).
  unfold verify_task_6, clear_trend, r_squared_exact, slope_exact,
    jan_mar, day_index.
  cbv beta zeta.
  rewrite !linregress_sums by (apply Nat.ltb_lt; vm_compute; reflexivity).
  eval_statistics.
  split_all; vm_compute; try reflexivity; discriminate.
Qed.

(** C2, as the code has it.  In the run, the January correlation between
    temperature and air quality is negative, but it is weaker, not
    stronger, than the January correlation between temperature and CO2:
    the covariance with CO2 is negative too and the squared coefficient
    of air quality is strictly below that of CO2.  Only the correlation
    with precipitation is weaker.  The T2 line on the files of the run is
    FAIL, and the second verifier names CO2 as the most inverse
    variable. *)
Theorem january_correlation_ranking (s0 : Legacy.aug_state) :
  let d := generate (np := numpy_legacy) s0 in
  let t := jan (temperature d) in
  let r_aqi := np_corrcoef t (jan (aqi_values d)) in
  let r_co2 := np_corrcoef t (jan (co2 d)) in
  let r_precip := np_corrcoef t (jan (precipitation d)) in
  float_lt r_aqi (Some 0) = true /\
  float_lt r_co2 r_aqi = true /\
  float_lt (float_abs r_aqi) (float_abs r_co2) = true /\
  float_lt (float_abs r_precip) (float_abs r_aqi) = true /\
  (sum_dev t (jan (aqi_values d)) < 0 /\ sum_dev t (jan (co2 d)) < 0 /\
   r_squared_exact t (jan (aqi_values d)) < r_squared_exact t (jan (co2 d))) /\
  nth_error (fst (verify_tasks (persist d))) 1
    = Some (t2_check r_aqi r_co2 r_precip) /\
  t2_check r_aqi r_co2 r_precip = FAIL /\
  fst (verify_task_2 (joined d)) = CO2.
Proof.
  intros d t r_aqi r_co2 r_precip. subst d t r_aqi r_co2 r_precip.
  rewrite (generate_seeded s0), verify_tasks_seeded.
  unfold r_squared_exact, verify_task_2, pearsonr. cbv beta zeta.
  assert (J : forall v : variable,
             map (col v)
               (between (mk_datetime 2023 1 1) (mk_datetime 2023 2 1)
                  (joined seeded_series))
             = jan match v with
                   | Temperature => temperature seeded_series
                   | AQI => aqi_values seeded_series
                   | CO2 => co2 seeded_series
                   | Precipitation => precipitation seeded_series
                   end)
    by (intros []; vm_compute; reflexivity).
  rewrite !J.
  eval_statistics.
  split_all; vm_compute; reflexivity.
Qed.

(** ** The text of the CSV files *)

Lemma char_digit_digit_char (d : Z) :
  (0 <= d < 10)%Z -> char_digit (digit_char d) = Some d.
Proof.
  intro H.
  assert (E : (d = 0 \/ d = 1 \/ d = 2 \/ d = 3 \/ d = 4 \/ d = 5 \/ d = 6 \/
               d = 7 \/ d = 8 \/ d = 9)%Z) by lia.
  repeat (destruct E as [-> | E]; [reflexivity|]). subst d. reflexivity.
Qed.

Lemma expect_digit_char (c : ascii) (d : Z) (s : string) :
  char_digit c = None -> (0 <= d < 10)%Z ->
  expect c (String (digit_char d) s) = None.
Proof.
  intros Hc H. cbn [expect].
  destruct (Ascii.eqb_spec (digit_char d) c) as [<-|]; [|reflexivity].
  rewrite char_digit_digit_char in Hc by exact H. discriminate.
Qed.

(** Reading back [k] digits written by [show_digits]. *)
Lemma read_digits_show_digits (k : nat) :
  forall (n acc : Z) (count : nat) (rest : string),
  read_digits acc count (show_digits k n rest)
  = read_digits (acc * 10 ^ Z.of_nat k + n mod 10 ^ Z.of_nat k)
                (count + k) rest.
Proof.
  induction k as [|k IH]; intros n acc count rest.
  - cbn [show_digits]. rewrite Nat.add_0_r. f_equal.
    change (10 ^ Z.of_nat 0)%Z with 1%Z. rewrite Z.mod_1_r. lia.
  - cbn [show_digits]. rewrite IH. cbn [read_digits].
    rewrite char_digit_digit_char by (apply Z.mod_pos_bound; lia).
    rewrite <- Nat.add_succ_comm. f_equal.
    rewrite Nat2Z.inj_succ, Z.pow_succ_r by lia.
    rewrite (Z.rem_mul_r n 10 (10 ^ Z.of_nat k)) by lia. lia.
Qed.

Lemma show_digits_head (k : nat) : forall (n : Z) (rest : string),
  exists d s, (0 <= d < 10)%Z /\
              show_digits (S k) n rest = String (digit_char d) s.
Proof.
  induction k as [|k IH]; intros n rest.
  - exists (n mod 10)%Z, rest. split; [apply Z.mod_pos_bound; lia|reflexivity].
  - change (show_digits (S (S k)) n rest)
      with (show_digits (S k) (n / 10) (String (digit_char (n mod 10)) rest)).
    apply IH.
Qed.

Lemma ndigits_fuel_bound (fuel : nat) : forall n : Z,
  (0 <= n < 2 ^ Z.of_nat (S fuel))%Z ->
  (n < 10 ^ Z.of_nat (ndigits_fuel fuel n))%Z.
Proof.
  induction fuel as [|fuel IH]; intros n H.
  - cbn [ndigits_fuel]. change (2 ^ Z.of_nat 1)%Z with 2%Z in H.
    change (10 ^ Z.of_nat 1)%Z with 10%Z. lia.
  - cbn [ndigits_fuel]. destruct (Z.ltb_spec n 10) as [Hn|Hn].
    + change (10 ^ Z.of_nat 1)%Z with 10%Z. lia.
    + rewrite Nat2Z.inj_succ, Z.pow_succ_r by lia.
      assert (Hq : (0 <= n / 10 < 2 ^ Z.of_nat (S fuel))%Z).
      { rewrite (Nat2Z.inj_succ (S fuel)), Z.pow_succ_r in H by lia.
        split; [apply Z.div_pos; lia|].
        apply Z.div_lt_upper_bound; lia. }
      specialize (IH _ Hq).
      pose proof (Z.div_mod n 10 ltac:(lia)).
      pose proof (Z.mod_pos_bound n 10 ltac:(lia)). lia.
Qed.

Lemma ndigits_bound (n : Z) :
  (0 <= n)%Z -> (n < 10 ^ Z.of_nat (ndigits n))%Z.
Proof.
  intro H. unfold ndigits. apply ndigits_fuel_bound. split; [exact H|].
  rewrite Nat2Z.inj_succ, Z2Nat.id by apply Z.log2_nonneg.
  destruct (Z.eq_dec n 0) as [->|Hn]; [reflexivity|].
  apply Z.log2_spec. lia.
Qed.

Lemma ndigits_pos (n : Z) : exists k, ndigits n = S k.
Proof.
  unfold ndigits. destruct (Z.to_nat (Z.log2 n)); cbn [ndigits_fuel].
  - now exists 0%nat.
  - destruct (n <? 10)%Z; eexists; reflexivity.
Qed.

(** Reading back a natural number, up to a character that is no
    digit. *)
Lemma read_digits_show_nat (n : Z) (c : ascii) (rest : string) :
  (0 <= n)%Z -> char_digit c = None ->
  read_digits 0 0 (show_nat n (String c rest))
  = (n, ndigits n, String c rest).
Proof.
  intros Hn Hc. unfold show_nat. rewrite read_digits_show_digits.
  cbn [read_digits]. rewrite Hc.
  rewrite Z.mod_small by (split; [exact Hn | now apply ndigits_bound]).
  reflexivity.
Qed.

Lemma read_digits_show_nat_end (n : Z) :
  (0 <= n)%Z ->
  read_digits 0 0 (show_nat n EmptyString) = (n, ndigits n, EmptyString).
Proof.
  intros Hn. unfold show_nat. rewrite read_digits_show_digits.
  cbn [read_digits].
  rewrite Z.mod_small by (split; [exact Hn | now apply ndigits_bound]).
  reflexivity.
Qed.

Lemma expect_show_nat (c : ascii) (n : Z) (rest : string) :
  char_digit c = None -> expect c (show_nat n rest) = None.
Proof.
  intro Hc. unfold show_nat. destruct (ndigits_pos n) as [k ->].
  destruct (show_digits_head k n rest) as (d & s & Hd & ->).
  now apply expect_digit_char.
Qed.

(** An integer cell is read back as the integer written. *)
Lemma read_value_format_int (n : Z) :
  read_value (format_int n) = Some (inject_Z n).
Proof.
  unfold format_int, show_int, read_value.
  destruct (Z.ltb_spec n 0) as [Hn|Hn].
  - cbn [expect]. rewrite Ascii.eqb_refl.
    rewrite read_digits_show_nat_end by lia.
    destruct (ndigits_pos (- n)) as [k ->]. cbn [Nat.eqb].
    now rewrite Z.opp_involutive.
  - rewrite expect_show_nat by reflexivity.
    rewrite read_digits_show_nat_end by lia.
    destruct (ndigits_pos n) as [k ->]. reflexivity.
Qed.

(** A float cell is read back as the float rounded to the decimals
    written. *)
Lemma read_value_format_float (decimals : nat) (x : Q) :
  read_value (format_float decimals x) = Some (round_decimals decimals x).
Proof.
  unfold format_float, round_decimals, read_value.
  set (p := (10 ^ Z.of_nat decimals)%Z).
  assert (Hp : (0 < p)%Z) by (subst p; apply Z.pow_pos_nonneg; lia).
  set (scaled := Qfloor (Qabs x * inject_Z p + 1 / 2)).
  assert (Hs : (0 <= scaled)%Z).
  { subst scaled. change 0%Z with (Qfloor 0). apply Qfloor_resp_le.
    pose proof (Qabs_nonneg x).
    assert (0 <= inject_Z p) by (change 0 with (inject_Z 0);
                                 rewrite <- Zle_Qle; lia).
    pose proof (Qmult_le_0_compat _ _ H H0) as H1.
    revert H1. generalize (Qabs x * inject_Z p). intros u H1.
    apply Qle_trans with u; [exact H1|].
    rewrite <- (Qplus_0_r u) at 1. apply Qplus_le_r. discriminate. }
  assert (Hq : (0 <= scaled / p)%Z) by (apply Z.div_pos; lia).
  assert (Hr : (0 <= scaled mod p < p)%Z) by (apply Z.mod_pos_bound; lia).
  assert (E : (scaled / p * p + scaled mod p = scaled)%Z).
  { pose proof (Z.div_mod scaled p ltac:(lia)). lia. }
  assert (R : forall negative : bool,
    (let sign (n : Z) : Z := if negative then (- n)%Z else n in
     let '(ip, n1, s2) :=
       read_digits 0 0
         (show_nat (scaled / p)
            (String "." (show_digits decimals (scaled mod p) EmptyString))) in
     if Nat.eqb n1 0 then None
     else match s2 with
          | EmptyString => Some (inject_Z (sign ip))
          | String c s3 =>
              if Ascii.eqb c "." then
                let '(fp, n2, s4) := read_digits 0 0 s3 in
                match s4 with
                | EmptyString =>
                    let p := (10 ^ Z.of_nat n2)%Z in
                    Some (inject_Z (sign (ip * p + fp)%Z) / inject_Z p)
                | _ => None
                end
              else None
          end)
    = Some (inject_Z (if negative then (- scaled)%Z else scaled)
            / inject_Z p)).
  { intro negative. cbv zeta.
    rewrite read_digits_show_nat by (auto; reflexivity).
    destruct (ndigits_pos (scaled / p)) as [k ->]. cbn [Nat.eqb].
    rewrite Ascii.eqb_refl. rewrite read_digits_show_digits.
    cbn [read_digits]. rewrite Z.mul_0_l, Z.add_0_l, Nat.add_0_l.
    fold p. rewrite Z.mod_small by exact Hr. rewrite E. reflexivity. }
  destruct (Qlt_bool x 0).
  - cbn [expect]. rewrite Ascii.eqb_refl. apply (R true).
  - rewrite expect_show_nat by reflexivity. apply (R false).
Qed.

Lemma round_decimals_close (decimals : nat) (x : Q) :
  Qabs (round_decimals decimals x - x) <= tolerance decimals.
Proof.
  unfold round_decimals, tolerance.
  set (p := (10 ^ Z.of_nat decimals)%Z).
  assert (Hp : (0 < p)%Z) by (subst p; apply Z.pow_pos_nonneg; lia).
  set (P := inject_Z p).
  assert (HP : 0 < P)
    by (subst P; change 0 with (inject_Z 0); rewrite <- Zlt_Qlt; lia).
  replace (inject_Z (2 * p)) with (2 * P)
    by (subst P; unfold Qmult, inject_Z; cbn [Qnum Qden]; f_equal).
  set (scaled := Qfloor (Qabs x * P + 1 / 2)).
  pose proof (Qfloor_le (Qabs x * P + 1 / 2)) as Hlo.
  pose proof (Qlt_floor (Qabs x * P + 1 / 2)) as Hhi.
  fold scaled in Hlo, Hhi.
  rewrite inject_Z_plus in Hhi. change (inject_Z 1) with 1 in Hhi.
  apply (Qmult_le_r _ _ P HP).
  rewrite <- (Qabs_pos P) at 2 by (apply Qlt_le_weak, HP).
  rewrite <- Qabs_Qmult.
  assert (T : 1 / (2 * P) * P == 1 / 2) by (field; lra).
  rewrite T. apply Qabs_Qle_condition.
  destruct (Qlt_bool x 0) eqn:Ex.
  - apply Qlt_bool_iff in Ex.
    assert (A : Qabs x * P == - (x * P))
      by (rewrite Qabs_neg by lra; ring).
    rewrite A in Hlo, Hhi. rewrite inject_Z_opp.
    assert (E : (- inject_Z scaled / P - x) * P == - inject_Z scaled - x * P)
      by (field; lra).
    rewrite E. revert Hlo Hhi. generalize (x * P) (inject_Z scaled).
    change (1 / 2) with (1 # 2). intros u v Hlo Hhi. split; lra.
  - apply Qlt_bool_false_iff in Ex.
    assert (A : Qabs x * P == x * P) by (now rewrite Qabs_pos).
    rewrite A in Hlo, Hhi.
    assert (E : (inject_Z scaled / P - x) * P == inject_Z scaled - x * P)
      by (field; lra).
    rewrite E. revert Hlo Hhi. generalize (x * P) (inject_Z scaled).
    change (1 / 2) with (1 # 2). intros u v Hlo Hhi. split; lra.
Qed.

(** The dates the ISO form can hold: four digits of year, a month and a
    day of the calendar. *)
Lemma read_date_show_date (d : datetime) (c : ascii) (rest : string) :
  iso_date d = true -> char_digit c = None ->
  read_date (show_date d (String c rest)) = Some (d, String c rest).
Proof.
  unfold iso_date, valid_date. intros H Hc.
  rewrite !andb_true_iff, !Z.leb_le, Z.ltb_lt in H.
  destruct H as [[Hy0 Hy] [[[Hm1 Hm] Hd1] Hd]].
  assert (Hdm : (days_in_month (year d) (month d) <= 31)%Z).
  { unfold days_in_month.
    repeat match goal with |- context [if ?b then _ else _] => destruct b end;
      lia. }
  unfold read_date, show_date.
  rewrite read_digits_show_digits. cbn [read_digits].
  replace (char_digit "-") with (@None Z) by reflexivity.
  cbn [expect]. rewrite Ascii.eqb_refl.
  rewrite read_digits_show_digits. cbn [read_digits].
  replace (char_digit "-") with (@None Z) by reflexivity.
  cbn [expect]. rewrite Ascii.eqb_refl.
  rewrite read_digits_show_digits. cbn [read_digits]. rewrite Hc.
  rewrite !Z.mul_0_l, !Z.add_0_l.
  change (10 ^ Z.of_nat 4)%Z with 10000%Z.
  change (10 ^ Z.of_nat 2)%Z with 100%Z.
  rewrite !Z.mod_small by lia.
  cbn [Nat.add Nat.eqb andb]. unfold valid_date.
  replace (1 <=? month d)%Z with true by (symmetry; apply Z.leb_le; lia).
  replace (month d <=? 12)%Z with true by (symmetry; apply Z.leb_le; lia).
  replace (1 <=? day d)%Z with true by (symmetry; apply Z.leb_le; lia).
  replace (day d <=? days_in_month (year d) (month d))%Z with true
    by (symmetry; apply Z.leb_le; lia).
  cbn [andb]. now destruct d.
Qed.

Lemma dates_iso : forallb iso_date dates = true.
Proof. reflexivity. Qed.

(** Reading back the lines of a file, cell by cell. *)
Lemma read_rows_written (ds : list datetime) :
  forall (cells : list string) (vs : list Q),
  forallb iso_date ds = true ->
  Forall2 (fun cell v => read_value cell = Some v) cells vs ->
  read_rows (map (fun r => show_date (fst r) (String "," (snd r)))
                 (combine ds cells))
  = Some (combine ds vs).
Proof.
  induction ds as [|d ds IH]; intros cells vs Hd Hc; [reflexivity|].
  cbn [forallb] in Hd. apply andb_true_iff in Hd. destruct Hd as [Hd Hds].
  destruct Hc as [|cell v cells vs Hv Hc]; [reflexivity|].
  cbn [combine map read_rows fst snd]. unfold read_row.
  rewrite read_date_show_date by (auto; reflexivity).
  cbn [expect]. rewrite Ascii.eqb_refl, Hv.
  now rewrite (IH cells vs Hds Hc).
Qed.

Lemma parse_csv_written (name : string) (ds : list datetime)
    (cells : list string) (vs : list Q) :
  forallb iso_date ds = true ->
  Forall2 (fun cell v => read_value cell = Some v) cells vs ->
  parse_csv name (to_csv_text name ds cells) = to_csv ds vs.
Proof.
  intros Hd Hc. unfold parse_csv, to_csv_text, to_csv.
  rewrite String.eqb_refl. now rewrite (read_rows_written ds cells vs Hd Hc).
Qed.

Lemma Forall2_map_cells {A} (f : A -> string) (g : A -> Q) (xs : list A) :
  (forall x, read_value (f x) = Some (g x)) ->
  Forall2 (fun cell v => read_value cell = Some v) (map f xs) (map g xs).
Proof. intro H. induction xs; cbn [map]; constructor; auto. Qed.

Lemma reloads_rounded (decimals : nat) (xs : list Q) :
  length xs = length dates ->
  reloads (tolerance decimals)
    (to_csv dates (map (round_decimals decimals) xs)) dates xs.
Proof.
  intro H. exists (combine dates (map (round_decimals decimals) xs)).
  split; [reflexivity|]. split.
  - rewrite <- (length_map (round_decimals decimals)) in H.
    revert H. generalize (map (round_decimals decimals) xs).
    induction dates as [|d ds IH]; intros [|y ys] Hl; try discriminate;
      [reflexivity|].
    cbn [combine map fst]. f_equal. apply IH. now injection Hl.
  - assert (E : map snd (combine dates (map (round_decimals decimals) xs))
                = map (round_decimals decimals) xs).
    { rewrite <- (length_map (round_decimals decimals)) in H.
      revert H. generalize (map (round_decimals decimals) xs).
      induction dates as [|d ds IH]; intros [|y ys] Hl; try discriminate;
        [reflexivity|].
      cbn [combine map snd]. f_equal. apply IH. now injection Hl. }
    rewrite E. clear. induction xs; cbn [map]; constructor; auto.
    apply round_decimals_close.
Qed.

(** C7.  For every generated series, whatever is drawn and however many
    decimals the floats are written with: the text the generator writes
    is read back as four tables.  The air-quality table is the one the
    generator holds in memory, with the dates of the horizon in order and
    exactly the integers of the series.  The temperature, CO2 and
    precipitation tables hold the same dates in the same order and, in
    the same order, values within half a unit of the last decimal
    written of the values of the series. *)
Theorem csv_round_trip {np : NumPy} (s0 : rng) (decimals : nat) :
  let d := generate s0 in
  let files := load_text (persist_text decimals d) in
  (exists rows,
     air_quality_csv files = Table rows /\
     map fst rows = dates /\ map snd rows = map inject_Z (aqi d)) /\
  air_quality_csv files = air_quality_csv (persist d) /\
  reloads (tolerance decimals) (temperature_csv files) dates
    (temperature d) /\
  reloads (tolerance decimals) (co2_csv files) dates (co2 d) /\
  reloads (tolerance decimals) (precipitation_csv files) dates
    (precipitation d).
Proof.
  intros d files. subst files.
  destruct (generate_lengths s0) as (Lt & La & Lc & Lp). fold d in Lt, La, Lc, Lp.
  unfold load_text, persist_text, persist.
  cbn [temperature_csv air_quality_csv co2_csv precipitation_csv
       temperature_txt air_quality_txt co2_txt precipitation_txt].
  assert (A : parse_csv air_quality_name
                (to_csv_text air_quality_name dates (map format_int (aqi d)))
              = to_csv dates (map inject_Z (aqi d))).
  { apply parse_csv_written; [apply dates_iso|].
    apply Forall2_map_cells, read_value_format_int. }
  assert (F : forall name xs,
            parse_csv name
              (to_csv_text name dates (map (format_float decimals) xs))
            = to_csv dates (map (round_decimals decimals) xs)).
  { intros name xs. apply parse_csv_written; [apply dates_iso|].
    apply Forall2_map_cells, read_value_format_float. }
  rewrite A, !F.
  split; [|split; [reflexivity|]].
  - exists (combine dates (map inject_Z (aqi d))).
    split; [reflexivity|].
    rewrite <- (length_map inject_Z) in La. revert La.
    generalize (map inject_Z (aqi d)). generalize dates.
    induction l as [|x l IH]; intros [|y ys] Hl; try discriminate;
      [split; reflexivity|].
    cbn [combine map fst snd].
    destruct (IH ys ltac:(now injection Hl)) as [-> ->]. split; reflexivity.
  - split_all; now apply reloads_rounded.
Qed.

(** ** Missing, unreadable and misaligned files *)

(** C8, as the spec has it, fails: the files [misaligned_files] are all
    present and readable, the air-quality file covers other dates than
    the three others, and [verify_tasks] runs to its last line and prints
    its five status lines. *)
Lemma misaligned_files_are_accepted :
  ~ aligned misaligned_files /\
  verify_tasks (np := numpy_legacy) misaligned_files
  = ([PASS; FAIL; FAIL; FAIL; FAIL], None) /\
  ~ aborted (verify_tasks (np := numpy_legacy) misaligned_files).
Proof.
  split; [|split].
  - intros [H _]. discriminate H.
  - vm_compute. reflexivity.
  - intros [e H]. vm_compute in H. discriminate H.
Qed.

Section MissingFiles.

Context {np : NumPy}.

(** C8, amended.  When any of the four input files is missing or
    unreadable, [verify_tasks] ends in an exception before it prints any
    status line; and [load_data] of the second verifier leaves the
    interpreter with exit status 1 on a missing or unreadable file. *)
Theorem unavailable_file_aborts (fs : test_data) :
  unavailable (temperature_csv fs) \/ unavailable (air_quality_csv fs) \/
  unavailable (co2_csv fs) \/ unavailable (precipitation_csv fs) ->
  (exists e, verify_tasks fs = ([], Some e)) /\
  (forall f : csv_file row, unavailable f -> load_data f = SysExit 1).
Proof.
  intro H. split.
  - unfold verify_tasks, run, verify_tasks_script, vbind, eval.
    destruct (temperature_csv fs) as [| |t]; cbn [read_csv];
      try (eexists; reflexivity).
    destruct (air_quality_csv fs) as [| |a]; cbn [read_csv];
      try (eexists; reflexivity).
    destruct (co2_csv fs) as [| |c]; cbn [read_csv];
      try (eexists; reflexivity).
    destruct (precipitation_csv fs) as [| |p]; cbn [read_csv];
      try (eexists; reflexivity).
    exfalso. destruct H as [[H|H] | [[H|H] | [[H|H] | [H|H]]]]; discriminate H.
  - intros f [-> | ->]; reflexivity.
Qed.

End MissingFiles.

Lemma unavailable_file_aborts_witness :
  (exists e, verify_tasks (np := numpy_legacy)
               (mk_test_data Missing (Table []) (Table []) Unreadable)
             = ([], Some e)) /\
  (forall f : csv_file row, unavailable f -> load_data f = SysExit 1).
Proof.
  apply (unavailable_file_aborts
           (mk_test_data Missing (Table []) (Table []) Unreadable)).
  left. left. reflexivity.
Defined.

Lemma forced_days_count_witness :
  let d := generate (np := numpy_legacy) (Legacy.seed 0) in
  nth_error dates 42 = Some (mk_datetime 2023 2 12) /\
  nth_error dates 48 = Some (mk_datetime 2023 2 18) /\
  forced_event d 42 /\ forced_event d 48 /\
  (2 <= generator_t5_count d)%nat /\ generator_t5_count d <> 1%nat.
Proof.
  exact (forced_days_count (np := numpy_legacy) (laws := numpy_legacy_laws)
           (Legacy.seed 0)).
Defined.

(** * Further properties *)

(** ** Ranges of the generated values *)

Lemma co2_body_upper {np : NumPy} (i : nat) (date : datetime) (s : rng) :
  fst (co2_body i date s) <= 435.
Proof.
  unfold co2_body, bind, ret, np_random_normal.
  destruct (standard_normal s) as [z s']. simpl fst.
  unfold py_max, py_min.
  match goal with
  | |- context [Qlt_bool ?v 435] => destruct (Qlt_bool v 435) eqn:E1
  end.
  - apply Qlt_bool_iff in E1.
    match goal with
    | |- context [Qlt_bool 385 ?v] => destruct (Qlt_bool 385 v)
    end; [apply Qlt_le_weak, E1 | discriminate].
  - destruct (Qlt_bool 385 435); [apply Qle_refl | discriminate].
Qed.

(** X1.  Whatever is drawn, every air-quality value is at least 30 and every
    CO2 value lies between 385 and 435: the floor of the air-quality
    loop and the cap of the CO2 loop. *)
Theorem generated_value_ranges {np : NumPy} (s0 : rng) :
  let d := generate s0 in
  Forall (fun v : Z => (30 <= v)%Z) (aqi d) /\
  Forall (fun v : Q => 385 <= v /\ v <= 435) (co2 d).
Proof.
  intro d. subst d.
  destruct (generate_loops s0) as (s1 & s2 & s3 & Et & Ea & Ec & Ep).
  rewrite Ea, Ec. split.
  - apply for_enumerate_Forall. intros i x s _. apply aqi_body_floor.
  - apply for_enumerate_Forall. intros i x s _.
    split; [apply co2_body_range | apply co2_body_upper].
Qed.

(** ** The files of the generator *)

Lemma map_fst_combine_eq {A B} (l : list A) : forall xs : list B,
  length xs = length l -> map fst (combine l xs) = l.
Proof.
  induction l as [|a l IH]; intros [|x xs] H; try discriminate;
    [reflexivity|].
  cbn [combine map fst]. f_equal. apply IH. now injection H.
Qed.

Lemma map_snd_combine_eq {A B} (l : list A) : forall xs : list B,
  length xs = length l -> map snd (combine l xs) = xs.
Proof.
  induction l as [|a l IH]; intros [|x xs] H; try discriminate;
    [reflexivity|].
  cbn [combine map snd]. f_equal. apply IH. now injection H.
Qed.

(** X2.  Whatever is drawn, the four files the generator writes cover the
    dates of the horizon, in order: they are aligned. *)
Theorem generated_files_aligned {np : NumPy} (s0 : rng) :
  let fs := persist (generate s0) in
  date_column (temperature_csv fs) = dates /\
  date_column (air_quality_csv fs) = dates /\
  date_column (co2_csv fs) = dates /\
  date_column (precipitation_csv fs) = dates /\
  aligned fs.
Proof.
  intro fs. subst fs.
  destruct (generate_lengths s0) as (Lt & La & Lc & Lp).
  unfold aligned, persist, to_csv.
  cbn [temperature_csv air_quality_csv co2_csv precipitation_csv date_column].
  rewrite !map_fst_combine_eq by (rewrite ?length_map; assumption).
  repeat split.
Qed.

(** ** Sample and population variance *)

Lemma float_of_len_pos {A} (xs : list A) :
  xs <> [] -> 0 < float_of_len xs.
Proof.
  intro H. unfold float_of_len, float_of_nat.
  change 0 with (inject_Z 0). rewrite <- Zlt_Qlt.
  destruct xs; [congruence | simpl; lia].
Qed.

Lemma float_of_len_gt_1 {A} (x y : A) (xs : list A) :
  0 < float_of_len (x :: y :: xs) - 1.
Proof.
  unfold float_of_len, float_of_nat.
  change 1 with (inject_Z 1). unfold Qminus.
  rewrite <- inject_Z_opp, <- inject_Z_plus.
  change 0 with (inject_Z 0). rewrite <- Zlt_Qlt. simpl length. lia.
Qed.

Lemma Qlt_bool_div (a b n : Q) :
  0 < n -> Qlt_bool (a / n) (b / n) = Qlt_bool a b.
Proof.
  intro H. apply Bool.eq_true_iff_eq. rewrite !Qlt_bool_iff.
  unfold Qdiv. apply Qmult_lt_r. now apply Qinv_lt_0_compat.
Qed.

(** X3.  On two lists of the same length, with two values or more, the
    sample variance the verifier takes and the population variance the
    generator prints rank the lists alike. *)
Theorem variance_rankings_agree (xs ys : list Q) :
  length xs = length ys -> (2 <= length xs)%nat ->
  float_gt (var xs) (var ys) = float_gt (np_var xs) (np_var ys).
Proof.
  intros Hl H2.
  destruct xs as [|x1 [|x2 xs]]; simpl in H2; try lia.
  destruct ys as [|y1 [|y2 ys]]; try discriminate.
  assert (En : float_of_len (y1 :: y2 :: ys) = float_of_len (x1 :: x2 :: xs))
    by (unfold float_of_len; now rewrite Hl).
  unfold var, np_var, float_gt. rewrite En.
  rewrite Qlt_bool_div by apply float_of_len_gt_1.
  rewrite Qlt_bool_div by (apply float_of_len_pos; discriminate).
  reflexivity.
Qed.

Lemma variance_rankings_agree_witness :
  float_gt (var [1; 2; 4]) (var [1; 2; 3])
  = float_gt (np_var [1; 2; 4]) (np_var [1; 2; 3]).
Proof.
  apply (variance_rankings_agree [1; 2; 4] [1; 2; 3]);
    [reflexivity | simpl; lia].
Defined.

(** ** [idxmax] *)

Lemma idxmax_from_spec (xs : list Q) : forall (k bi : nat) (b : Q),
  let r := idxmax_from (bi, b) (combine (seq k (length xs)) xs) in
  (r = bi /\ Forall (fun x => x <= b) xs) \/
  (exists j m, r = (k + j)%nat /\ nth_error xs j = Some m /\ b < m /\
               Forall (fun x => x <= m) xs /\
               forall i x, (i < j)%nat -> nth_error xs i = Some x -> x < m).
Proof.
  induction xs as [|x xs IH]; intros k bi b; cbn [length seq combine idxmax_from].
  - left. split; [reflexivity | constructor].
  - cbn [snd]. destruct (Qlt_bool b x) eqn:E.
    + apply Qlt_bool_iff in E. right.
      destruct (IH (S k) k x) as [[Hr Hall] | (j & m & Hr & Hj & Hm & Hall & Hlt)].
      * exists 0%nat, x. rewrite Nat.add_0_r. repeat split; auto.
        -- constructor; [apply Qle_refl | exact Hall].
        -- intros i y Hi. lia.
      * exists (S j), m. rewrite <- Nat.add_succ_comm. repeat split; auto.
        -- eapply Qlt_trans; eassumption.
        -- constructor; [apply Qlt_le_weak, Hm | exact Hall].
        -- intros [|i] y Hi Hy; cbn [nth_error] in Hy.
           ++ injection Hy as <-. exact Hm.
           ++ apply (Hlt i y); [lia | exact Hy].
    + apply Qlt_bool_false_iff in E.
      destruct (IH (S k) bi b) as [[Hr Hall] | (j & m & Hr & Hj & Hm & Hall & Hlt)].
      * left. split; [exact Hr|]. constructor; assumption.
      * right. exists (S j), m. rewrite <- Nat.add_succ_comm.
        repeat split; auto.
        -- constructor; [|exact Hall]. apply Qlt_le_weak.
           eapply Qle_lt_trans; eassumption.
        -- intros [|i] y Hi Hy; cbn [nth_error] in Hy.
           ++ injection Hy as <-. eapply Qle_lt_trans; eassumption.
           ++ apply (Hlt i y); [lia | exact Hy].
Qed.

(** X4.  [Series.idxmax()] on a Series with the labels [0 .. n-1]: an empty
    Series is a [ValueError]; otherwise the result is a position of the
    maximum, and the first one: no value is larger, and every value
    before it is strictly smaller. *)
Theorem idxmax_first_maximum (xs : list Q) :
  match idxmax (range_index xs) with
  | inl e => xs = [] /\ e = ValueError
  | inr k =>
      exists m, nth_error xs k = Some m /\
                Forall (fun x => x <= m) xs /\
                forall i x, (i < k)%nat -> nth_error xs i = Some x -> x < m
  end.
Proof.
  destruct xs as [|x xs]; [split; reflexivity|].
  unfold range_index. cbn [length seq combine idxmax].
  destruct (idxmax_from_spec xs 1 0 x)
    as [[Hr Hall] | (j & m & Hr & Hj & Hm & Hall & Hlt)]; rewrite Hr.
  - exists x. repeat split; auto.
    + constructor; [apply Qle_refl | exact Hall].
    + intros i y Hi. lia.
  - exists m. cbn [Nat.add nth_error]. repeat split; auto.
    + constructor; [apply Qlt_le_weak, Hm | exact Hall].
    + intros [|i] y Hi Hy; cbn [nth_error] in Hy.
      * injection Hy as <-. exact Hm.
      * apply (Hlt i y); [lia | exact Hy].
Qed.

(** ** The number of status lines *)

Section LineCount.

Context {np : NumPy}.

Lemma prints_eval {A} (r : error + A) : prints (eval r) 0.
Proof.
  intro out. exists []. rewrite app_nil_r. split; [reflexivity|].
  unfold eval. cbn [snd]. destruct r; simpl; lia.
Qed.

Lemma prints_print_status (st : status) : prints (print_status st) 1.
Proof. intro out. exists [st]. split; reflexivity. Qed.

Lemma prints_all_print_status (st : status) :
  prints_all (print_status st) 1.
Proof. intro out. exists [st]. split; reflexivity. Qed.

Lemma prints_all_vbind {A B} (m : V A) (f : A -> V B) (k1 k2 : nat) :
  prints m k1 -> (0 < k2)%nat -> (forall a, prints_all (f a) k2) ->
  prints_all (vbind m f) (k1 + k2).
Proof.
  intros Hm Hk Hf out. unfold vbind.
  destruct (Hm out) as (more1 & E1 & C1).
  destruct (m out) as [out' [e|a]]; cbn [fst snd] in *.
  - exists more1. split; [exact E1 | lia].
  - subst out'. destruct (Hf a (out ++ more1)) as (more2 & E2 & C2).
    exists (more1 ++ more2). rewrite E2, app_assoc.
    split; [reflexivity|]. rewrite length_app.
    revert C2. destruct (snd (f a (out ++ more1))); intro C2; lia.
Qed.

Lemma prints_all_eval_bind {A B} (r : error + A) (f : A -> V B) (k : nat) :
  (0 < k)%nat -> (forall a, prints_all (f a) k) ->
  prints_all (vbind (eval r) f) k.
Proof.
  intros Hk Hf. apply (prints_all_vbind _ _ 0 k); auto. apply prints_eval.
Qed.

Lemma prints_all_print_bind {B} (st : status) (f : unit -> V B) (k : nat) :
  (0 < k)%nat -> (forall u, prints_all (f u) k) ->
  prints_all (vbind (print_status st) f) (S k).
Proof.
  intros Hk Hf. apply (prints_all_vbind _ _ 1 k); auto.
  apply prints_print_status.
Qed.

Ltac prints_tac :=
  repeat first
    [ apply prints_all_print_status
    | apply prints_all_eval_bind; [lia | intro]
    | apply prints_all_print_bind; [lia | intro] ].

Lemma verify_tasks_script_prints (fs : test_data) :
  prints_all (verify_tasks_script fs) 5.
Proof. unfold verify_tasks_script. prints_tac. Qed.

(** X5.  A run of [verify_tasks] prints at most five status lines, and it
    prints five exactly when it ends without an exception: an exception
    leaves a report that is one line short or more. *)
Theorem five_lines_iff_complete (fs : test_data) :
  (length (fst (verify_tasks fs)) <= 5)%nat /\
  (snd (verify_tasks fs) = None <-> length (fst (verify_tasks fs)) = 5%nat).
Proof.
  unfold verify_tasks, run.
  destruct (verify_tasks_script_prints fs []) as (more & E & C).
  destruct (verify_tasks_script fs []) as [out [e|u]]; cbn [fst snd] in *;
    subst out; cbn [app].
  - split; [lia|]. split; [discriminate | lia].
  - split; [lia|]. split; [intros _; exact C | reflexivity].
Qed.

End LineCount.

(** ** Runs that stop, and runs that reach the end *)

Lemma exec_eval_ok {A} (r : error + A) (a : A) (k : A -> V unit)
    (out : list status) :
  r = inr a -> exec (vbind (eval r) k) out = exec (k a) out.
Proof. intros ->. reflexivity. Qed.

Lemma exec_eval_inr {A} (a : A) (k : A -> V unit) (out : list status) :
  exec (vbind (eval (inr a)) k) out = exec (k a) out.
Proof. reflexivity. Qed.

Lemma exec_eval_error {A} (r : error + A) (e : error) (k : A -> V unit)
    (out : list status) :
  r = inl e -> exec (vbind (eval r) k) out = (out, Some e).
Proof. intros ->. reflexivity. Qed.

Lemma select_length {A B} (mask : list bool) :
  forall (xs : list A) (ys : list B), length xs = length ys ->
  length (select mask xs) = length (select mask ys).
Proof.
  induction mask as [|b mask IH]; intros [|x xs] [|y ys] H;
    simpl in *; try reflexivity; try discriminate.
  destruct b; simpl; auto.
Qed.

Lemma in_month_length (m : Z) (t a b : list (datetime * Q)) :
  length a = length b -> length (in_month m t a) = length (in_month m t b).
Proof.
  intro H. unfold in_month. apply select_length. now rewrite !length_map.
Qed.

Lemma corrcoef_same_length {np : NumPy} (x y : list Q) :
  length x = length y -> corrcoef x y = inr (np_corrcoef x y).
Proof. intro H. unfold corrcoef. now rewrite H, Nat.eqb_refl. Qed.

(** The selection by a mask computed row by row is empty exactly when
    no row passes the test. *)
Lemma select_map_nil {A B} (f : A -> bool) (rows : list A) :
  forall l : list B, length l = length rows ->
  (select (map f rows) (combine l rows) = [] <-> existsb f rows = false).
Proof.
  induction rows as [|r rows IH]; intros [|i l] H; try discriminate.
  - split; reflexivity.
  - cbn [map combine select existsb]. destruct (f r); cbn [orb].
    + split; discriminate.
    + apply IH. now injection H.
Qed.

Lemma select_In {A} (mask : list bool) : forall (xs : list A) (x : A),
  In x (select mask xs) -> In x xs.
Proof.
  induction mask as [|b mask IH]; intros [|y xs] x H; cbn [select] in H;
    try contradiction.
  destruct b; [destruct H as [<- | H]|]; [now left | right; auto | right; auto].
Qed.

Lemma idxmax_from_In (s : Series Q) : forall best : nat * Q,
  idxmax_from best s = fst best \/ In (idxmax_from best s) (map fst s).
Proof.
  induction s as [|[i x] s IH]; intros best; cbn [idxmax_from map fst snd].
  - now left.
  - destruct (Qlt_bool (snd best) x).
    + destruct (IH (i, x)) as [H | H].
      * right. left. symmetry. exact H.
      * right. right. exact H.
    + destruct (IH best) as [H | H]; [left; exact H | right; right; exact H].
Qed.

Lemma idxmax_In (s : Series Q) (k : nat) :
  idxmax s = inr k -> In k (map fst s).
Proof.
  destruct s as [|[i x] s]; [discriminate|]. cbn [idxmax]. intro H.
  injection H as <-. cbn [map fst].
  destruct (idxmax_from_In s (i, x)) as [E | E];
    [left; symmetry; exact E | right; exact E].
Qed.

Lemma idxmax_nonempty (s : Series Q) :
  s <> [] -> exists k, idxmax s = inr k.
Proof. destruct s as [|b s]; [congruence|]. intros _. eexists. reflexivity. Qed.

Lemma lookup_In {A} (j : nat) (s : Series A) :
  In j (map fst s) -> exists a, lookup j s = Some a.
Proof.
  induction s as [|[i x] s IH]; intro H; [contradiction|].
  cbn [lookup]. destruct (Nat.eqb_spec j i) as [E | E]; [now exists x|].
  destruct H as [H | H]; [cbn [fst] in H; congruence | now apply IH].
Qed.

Lemma map_fst_column {A B} (f : A -> B) (s : Series A) :
  map fst (column f s) = map fst s.
Proof. unfold column. rewrite map_map. reflexivity. Qed.



Lemma select_combine {A B} (mask : list bool) :
  forall (l : list A) (xs : list B),
  select mask (combine l xs) = combine (select mask l) (select mask xs).
Proof.
  induction mask as [|b mask IH]; intros l xs.
  - destruct (combine l xs); reflexivity.
  - destruct l as [|a l]; [reflexivity|].
    destruct xs as [|x xs].
    + cbn [combine select]. destruct b; [reflexivity|].
      now destruct (select mask l).
    + cbn [combine select]. destruct b; cbn [combine]; now rewrite IH.
Qed.

Lemma select_map {A B} (f : A -> B) (mask : list bool) :
  forall xs : list A, select mask (map f xs) = map f (select mask xs).
Proof.
  induction mask as [|b mask IH]; intros [|x xs]; cbn [map select];
    try reflexivity.
  destruct b; cbn [map]; now rewrite IH.
Qed.

Lemma select_seq_lower (mask : list bool) : forall k n j,
  In j (select mask (seq k n)) -> (k <= j)%nat.
Proof.
  induction mask as [|b mask IH]; intros k [|n] j H; cbn [seq select] in H;
    try contradiction.
  destruct b.
  - destruct H as [<- | H]; [lia|]. apply IH in H. lia.
  - apply IH in H. lia.
Qed.

Lemma select_NoDup (mask : list bool) : forall k n,
  NoDup (select mask (seq k n)).
Proof.
  induction mask as [|b mask IH]; intros k [|n]; cbn [seq select];
    try constructor.
  - destruct b; [|apply IH]. constructor; [|apply IH].
    intro H. apply select_seq_lower in H. lia.
Qed.

(** [&] and [.sum()] on two boolean Series over the same labels, none of
    them repeated, count the positions where both hold. *)
Lemma count_both_combine (l : list nat) : forall b1 b2 : list bool,
  NoDup l -> length b1 = length l -> length b2 = length l ->
  count_both (combine l b1) (combine l b2)
  = length (filter (fun p => fst p && snd p) (combine b1 b2)).
Proof.
  unfold count_both.
  induction l as [|i l IH]; intros [|x b1] [|y b2] Hnd H1 H2;
    simpl in H1, H2; try discriminate; try reflexivity.
  inversion Hnd as [|? ? Hi Hnd']; subst.
  cbn [combine filter].
  assert (E : filter
                (fun r : nat * bool =>
                   snd r && match lookup (fst r) ((i, y) :: combine l b2) with
                            | Some true => true
                            | _ => false
                            end) (combine l b1)
              = filter
                  (fun r : nat * bool =>
                     snd r && match lookup (fst r) (combine l b2) with
                              | Some true => true
                              | _ => false
                              end) (combine l b1)).
  { apply filter_ext_in. intros [j z] Hin. cbn [fst snd lookup].
    apply in_combine_l in Hin.
    destruct (Nat.eqb_spec j i) as [->|Hn]; [contradiction|reflexivity]. }
  rewrite E. specialize (IH b1 b2 Hnd' ltac:(lia) ltac:(lia)).
  cbn [fst snd lookup]. rewrite Nat.eqb_refl.
  destruct x, y; cbn [andb length]; rewrite IH; reflexivity.
Qed.

Lemma filter_combine_map {A B} (f : A -> bool) (g : B -> bool)
    (xs : list A) : forall ys : list B,
  length (filter (fun p => fst p && snd p) (combine (map f xs) (map g ys)))
  = length (filter (fun p => f (fst p) && g (snd p)) (combine xs ys)).
Proof.
  induction xs as [|x xs IH]; intros [|y ys]; cbn [map combine filter fst snd];
    try reflexivity.
  destruct (f x && g y); cbn [length]; now rewrite IH.
Qed.

(** The joint events of two lists of values: the positions with the
    first above 5 and the second above 100. *)
Lemma joint_events_values (ps as_ : list (datetime * Q)) :
  length (filter (fun r : (datetime * Q) * (datetime * Q) =>
                    Qlt_bool 5 (snd (fst r)) && Qlt_bool 100 (snd (snd r)))
            (combine ps as_))
  = length (filter joint_event (combine (map snd ps) (map snd as_))).
Proof.
  revert as_. induction ps as [|x ps IH]; intros [|y ys];
    cbn [map combine filter fst snd]; try reflexivity.
  unfold joint_event at 1. cbn [fst snd].
  destruct (Qlt_bool 5 (snd x) && Qlt_bool 100 (snd y)); cbn [length];
    now rewrite IH.
Qed.

Section Completion.

Context {np : NumPy}.

Variables t a c p : list (datetime * Q).

(** The third block on an air-quality table: the selection of the rows
    up to April, and what [idxmax] and [.loc] make of it. *)
Lemma jan_apr_selection :
  getitem_bool (column (fun r => (month (fst r) <=? 4)%Z) (range_index a))
               (range_index a)
  = inr (select (map (fun r => (month (fst r) <=? 4)%Z) a) (range_index a)).
Proof.
  rewrite column_range_index.
  apply getitem_bool_range_index. now rewrite length_map.
Qed.

Lemma jan_apr_found :
  existsb (fun r => (month (fst r) <=? 4)%Z) a = true ->
  exists k r,
    idxmax (column snd
              (select (map (fun r => (month (fst r) <=? 4)%Z) a)
                      (range_index a))) = inr k /\
    lookup k (range_index a) = Some r.
Proof.
  intro H.
  set (sel := select (map (fun r => (month (fst r) <=? 4)%Z) a)
                     (range_index a)).
  assert (Hne : column snd sel <> []).
  { intro E. assert (E' : sel = []) by (destruct sel; [reflexivity | discriminate]).
    subst sel. unfold range_index in E'.
    apply select_map_nil in E'; [congruence | apply length_seq]. }
  destruct (idxmax_nonempty _ Hne) as [k Hk]. exists k.
  pose proof (idxmax_In _ _ Hk) as Hin. rewrite map_fst_column in Hin.
  assert (Hin' : In k (map fst (range_index a))).
  { apply in_map_iff in Hin. destruct Hin as (x & <- & Hx).
    apply in_map. subst sel. eapply select_In. exact Hx. }
  destruct (lookup_In _ _ Hin') as [r Hr]. exists r. split; assumption.
Qed.


Hypothesis Ha : length a = length t.
Hypothesis Hc : length c = length t.
Hypothesis Hp : length p = length t.

(** [&] and [.sum()] of the fifth block, on the rows selected by
    position. *)
Lemma count_both_in_month :
  let mask := map (fun r : datetime * Q => (month (fst r) =? 2)%Z) t in
  count_both
    (column (fun r => Qlt_bool 5 (snd r)) (select mask (range_index p)))
    (column (fun r => Qlt_bool 100 (snd r)) (select mask (range_index a)))
  = length (filter joint_event (combine (in_month 2 t p) (in_month 2 t a))).
Proof.
  intro mask. unfold in_month. fold mask.
  unfold range_index. rewrite !select_combine, !column_combine.
  rewrite Ha, <- Hp.
  rewrite count_both_combine.
  - rewrite filter_combine_map, !select_map. apply joint_events_values.
  - apply select_NoDup.
  - rewrite length_map. apply select_length. now rewrite length_seq.
  - rewrite length_map. apply select_length. rewrite length_seq. lia.
Qed.

Ltac ok H := rewrite (exec_eval_ok _ _ _ _ H); cbv beta zeta.
Ltac masked m x :=
  ok (masked_values_in_month m t x ltac:(lia)).
Ltac selected x :=
  unfold month_is at 1; rewrite column_range_index;
  ok (getitem_bool_range_index
        (map (fun r => (month (fst r) =? 2)%Z) t) x
        ltac:(rewrite length_map; lia)).
Ltac printed := rewrite exec_print_bind; cbv beta zeta.

Ltac first_two_blocks :=
  unfold verify_tasks; change (run ?m) with (exec m []);
  unfold verify_tasks_script;
  cbn [temperature_csv air_quality_csv co2_csv precipitation_csv read_csv];
  do 4 (rewrite exec_eval_inr; cbv beta zeta);
  masked 2%Z t; masked 2%Z a; masked 2%Z c; masked 2%Z p; printed;
  masked 1%Z t; masked 1%Z a; masked 1%Z c; masked 1%Z p;
  ok (corrcoef_same_length _ _ (in_month_length 1 t t a (eq_sym Ha)));
  ok (corrcoef_same_length _ _ (in_month_length 1 t t c (eq_sym Hc)));
  ok (corrcoef_same_length _ _ (in_month_length 1 t t p (eq_sym Hp)));
  printed; ok jan_apr_selection.

(** The whole run on four tables of the same length, once the
    air-quality table has a row dated up to April: [k] is the label
    [idxmax] returns and [r] the row [.loc] finds there. *)
Lemma run_on_equal_tables :
  existsb (fun r => (month (fst r) <=? 4)%Z) a = true ->
  exists (k : nat) (r : datetime * Q),
    idxmax (column snd
              (select (map (fun r => (month (fst r) <=? 4)%Z) a)
                      (range_index a))) = inr k /\
    lookup k (range_index a) = Some r /\
    verify_tasks (mk_test_data (Table t) (Table a) (Table c) (Table p))
    = (report t a c p (fst r), None).
Proof.
  intro H. destruct (jan_apr_found H) as (k & r & Hk & Hr).
  exists k, r. split; [exact Hk|]. split; [exact Hr|].
  first_two_blocks. ok Hk. rewrite Hr. rewrite exec_eval_inr; cbv beta zeta.
  printed.
  masked 1%Z t; masked 2%Z t; masked 3%Z t; masked 1%Z c; masked 3%Z c; printed.
  selected p. selected a.
  rewrite exec_print. rewrite count_both_in_month. reflexivity.
Qed.



(** X8.  On tables of the same length, the February count of the fifth block
    is the number of February rows, taken by position, with
    precipitation above 5 and air quality above 100. *)
Theorem feb_joint_count_by_position :
  feb_joint_count t p a
  = inr (length (filter joint_event
                   (combine (in_month 2 t p) (in_month 2 t a)))).
Proof.
  unfold feb_joint_count, month_is. rewrite column_range_index.
  rewrite !getitem_bool_range_index by (rewrite length_map; lia).
  f_equal. apply count_both_in_month.
Qed.

End Completion.

Section TooLong.

Context {np : NumPy}.

Variables t a c p : list (datetime * Q).

Ltac ok H := rewrite (exec_eval_ok _ _ _ _ H); cbv beta zeta.
Ltac masked m x :=
  ok (masked_values_in_month m t x ltac:(lia)).
Ltac too_long x H :=
  rewrite (exec_eval_error _ _ _ _ (masked_values_too_long 2 t x H));
  reflexivity.

(** X9.  When the air-quality, the CO2 or the precipitation table has more
    rows than the temperature table, the February mask of the first
    block cannot be aligned with it: the run ends in an [IndexingError]
    before any status line. *)
Theorem longer_table_aborts :
  (length t < length a \/ length t < length c \/ length t < length p)%nat ->
  verify_tasks (mk_test_data (Table t) (Table a) (Table c) (Table p))
  = ([], Some IndexingError).
Proof.
  intro H.
  unfold verify_tasks; change (run ?m) with (exec m []).
  unfold verify_tasks_script.
  cbn [temperature_csv air_quality_csv co2_csv precipitation_csv read_csv].
  do 4 (rewrite exec_eval_inr; cbv beta zeta).
  masked 2%Z t.
  destruct (Nat.lt_ge_cases (length t) (length a)) as [La | La];
    [too_long a La|].
  masked 2%Z a.
  destruct (Nat.lt_ge_cases (length t) (length c)) as [Lc | Lc];
    [too_long c Lc|].
  masked 2%Z c.
  destruct (Nat.lt_ge_cases (length t) (length p)) as [Lp | Lp];
    [too_long p Lp|].
  exfalso. lia.
Qed.

End TooLong.

Lemma longer_table_aborts_witness :
  verify_tasks (np := numpy_legacy)
    (mk_test_data (Table [(mk_datetime 2023 2 1, 10)])
       (Table [(mk_datetime 2023 2 1, 50)])
       (Table [(mk_datetime 2023 2 1, 410); (mk_datetime 2023 2 2, 411)])
       (Table [(mk_datetime 2023 2 1, 0)]))
  = ([], Some IndexingError).
Proof.
  apply (longer_table_aborts (np := numpy_legacy)
           [(mk_datetime 2023 2 1, 10)] [(mk_datetime 2023 2 1, 50)]
           [(mk_datetime 2023 2 1, 410); (mk_datetime 2023 2 2, 411)]
           [(mk_datetime 2023 2 1, 0)]).
  right. left. simpl. lia.
Defined.



Lemma feb_joint_count_by_position_witness :
  feb_joint_count
    [(mk_datetime 2023 1 31, 5); (mk_datetime 2023 2 1, 10)]
    [(mk_datetime 2023 1 31, 9); (mk_datetime 2023 2 1, 7)]
    [(mk_datetime 2023 1 31, 150); (mk_datetime 2023 2 1, 120)]
  = inr 1%nat.
Proof.
  apply (feb_joint_count_by_position
           [(mk_datetime 2023 1 31, 5); (mk_datetime 2023 2 1, 10)]
           [(mk_datetime 2023 1 31, 150); (mk_datetime 2023 2 1, 120)]
           [(mk_datetime 2023 1 31, 9); (mk_datetime 2023 2 1, 7)]);
    reflexivity.
Defined.

(** ** The verifier on the files of the generator *)

Lemma map_fst_combine_with {A B C} (f : A -> C) (l : list A) :
  forall xs : list B, length xs = length l ->
  map (fun r => f (fst r)) (combine l xs) = map f l.
Proof.
  induction l as [|x l IH]; intros [|y ys] H; try discriminate;
    [reflexivity|].
  cbn [combine map fst]. f_equal. apply IH. now injection H.
Qed.

(** A mask that is true on one block selects the slice of that block. *)
Lemma select_block {A} (a b c : nat) (xs : list A) :
  select (repeat false a ++ repeat true b ++ repeat false c) xs
  = slice a (a + b) xs.
Proof.
  unfold slice. replace (a + b - a)%nat with b by lia.
  revert xs. induction a as [|a IHa]; intros xs.
  - cbn [repeat app skipn]. revert xs. induction b as [|b IHb]; intros xs.
    + cbn [repeat app firstn]. revert xs.
      induction c as [|c IHc]; intros [|x xs]; cbn; auto.
    + destruct xs as [|x xs]; cbn; [reflexivity|]. f_equal. apply IHb.
  - destruct xs as [|x xs]; cbn [repeat app select skipn].
    + now destruct b.
    + apply IHa.
Qed.

(** On files written over [dates], the rows of a month are a slice:
    January is [xs[0:31]], February [xs[31:59]], March [xs[59:90]]. *)
Lemma in_month_written (ts xs : list Q) :
  length ts = length dates -> length xs = length dates ->
  in_month 1 (combine dates ts) (combine dates xs) = jan xs /\
  in_month 2 (combine dates ts) (combine dates xs) = feb xs /\
  in_month 3 (combine dates ts) (combine dates xs) = mar xs.
Proof.
  intros Ht Hx. unfold in_month.
  rewrite !(map_fst_combine_with (fun d => (month d =? _)%Z) dates ts Ht).
  rewrite (map_snd_combine_eq dates xs Hx).
  change (map (fun d => (month d =? 1)%Z) dates)
    with (repeat false 0 ++ repeat true 31 ++ repeat false 69).
  change (map (fun d => (month d =? 2)%Z) dates)
    with (repeat false 31 ++ repeat true 28 ++ repeat false 41).
  change (map (fun d => (month d =? 3)%Z) dates)
    with (repeat false 59 ++ repeat true 31 ++ repeat false 10).
  rewrite !select_block. repeat split.
Qed.

Lemma existsb_combine_dates (xs : list Q) :
  length xs = length dates ->
  existsb (fun r : datetime * Q => (month (fst r) <=? 4)%Z) (combine dates xs)
  = true.
Proof.
  intro H. destruct xs as [|x xs]; [discriminate|]. reflexivity.
Qed.

Lemma select_all {A} (xs : list A) (n : nat) :
  (length xs <= n)%nat -> select (repeat true n) xs = xs.
Proof.
  intro H.
  pose proof (select_block 0 n 0 xs) as E. cbn [repeat app] in E.
  rewrite app_nil_r in E. rewrite E. unfold slice.
  cbn [skipn]. apply firstn_all2. lia.
Qed.

Lemma Qlt_bool_inject_Z (a b : Z) :
  Qlt_bool (inject_Z a) (inject_Z b) = (a <? b)%Z.
Proof.
  unfold Qlt_bool, Qle_bool. cbn [Qnum Qden inject_Z].
  rewrite !Z.mul_1_r. apply Bool.eq_true_iff_eq.
  rewrite negb_true_iff, Z.leb_gt, Z.ltb_lt. reflexivity.
Qed.

(** On integers, [idxmax] is [np.argmax]. *)
Lemma idxmax_from_argmax (zs : list Z) : forall (i bi : nat) (b : Z),
  idxmax_from (bi, inject_Z b) (combine (seq i (length zs)) (map inject_Z zs))
  = argmax_from bi b i zs.
Proof.
  induction zs as [|z zs IH]; intros i bi b;
    cbn [length seq map combine idxmax_from argmax_from]; [reflexivity|].
  cbn [snd]. rewrite Qlt_bool_inject_Z. destruct (b <? z)%Z; apply IH.
Qed.

Lemma idxmax_np_argmax (zs : list Z) :
  zs <> [] ->
  idxmax (range_index (map inject_Z zs)) = inr (np_argmax zs).
Proof.
  destruct zs as [|z zs]; [congruence|]. intros _.
  unfold range_index. rewrite length_map.
  cbn [length seq map combine idxmax np_argmax]. f_equal.
  apply idxmax_from_argmax.
Qed.

Lemma count_hits (ps : list Q) : forall zs : list Z,
  length (filter joint_event (combine ps (map inject_Z zs)))
  = length (filter t5_hit (combine ps zs)).
Proof.
  induction ps as [|p ps IH]; intros [|z zs]; cbn [map combine filter];
    try reflexivity.
  unfold t5_hit at 1, joint_event at 1. cbn [fst snd].
  change (Qlt_bool 100 (inject_Z z))
    with (Qlt_bool (inject_Z 100) (inject_Z z)).
  rewrite Qlt_bool_inject_Z.
  destruct (Qlt_bool 5 p && (100 <? z)%Z); cbn [length]; now rewrite IH.
Qed.

Lemma feb_aqi_values (d : series) :
  feb (aqi_values d) = map inject_Z (feb (aqi d)).
Proof.
  unfold feb, aqi_values, slice. now rewrite skipn_map, firstn_map.
Qed.

(** X10.  Whatever is drawn, [verify_tasks] reaches its end on the files of
    the generator, and its five status lines are the tests of the
    statistics the generator reports itself when it ends: those of its
    slices [xs[31:59]], [xs[:31]] and [xs[59:90]], the date
    [dates[np.argmax(aqi)]] and its own count of joint events. *)
Theorem verifier_agrees_with_generator {np : NumPy} (s0 : rng) :
  verify_tasks (persist (generate s0))
  = (generator_report (generate s0), None).
Proof.
  set (d := generate s0).
  destruct (generate_lengths s0) as (Lt & La & Lc & Lp).
  fold d in Lt, La, Lc, Lp.
  assert (La' : length (aqi_values d) = length dates)
    by (unfold aqi_values; now rewrite length_map).
  destruct (run_on_equal_tables
              (combine dates (temperature d)) (combine dates (aqi_values d))
              (combine dates (co2 d)) (combine dates (precipitation d)))
    as (k & r & Hk & Hr & E).
  - rewrite !length_combine. lia.
  - rewrite !length_combine. lia.
  - rewrite !length_combine. lia.
  - now apply existsb_combine_dates.
  - unfold persist, to_csv. fold (aqi_values d). rewrite E. f_equal.
    unfold report, generator_report.
    destruct (in_month_written (temperature d) (temperature d) Lt Lt)
      as (-> & -> & ->).
    destruct (in_month_written (temperature d) (aqi_values d) Lt La')
      as (-> & -> & _).
    destruct (in_month_written (temperature d) (co2 d) Lt Lc)
      as (-> & -> & ->).
    destruct (in_month_written (temperature d) (precipitation d) Lt Lp)
      as (-> & -> & _).
    rewrite feb_aqi_values, count_hits.
    assert (Ed : fst r = nth (np_argmax (aqi d)) dates start_date).
    { rewrite (map_fst_combine_with (fun d => (month d <=? 4)%Z) dates
                 (aqi_values d) La') in Hk.
      change (map (fun d => (month d <=? 4)%Z) dates)
        with (repeat true 100) in Hk.
      rewrite select_all in Hk
        by (unfold range_index; rewrite length_combine, length_seq,
              length_combine, La'; cbn; lia).
      rewrite column_range_index, (map_snd_combine_eq dates _ La') in Hk.
      unfold aqi_values in Hk. rewrite idxmax_np_argmax in Hk
        by (intro E0; rewrite E0 in La; discriminate).
      injection Hk as <-.
      rewrite lookup_range_index in Hr.
      apply (map_nth_error fst) in Hr.
      rewrite (map_fst_combine_eq dates _ La') in Hr.
      symmetry. now apply nth_error_nth. }
    rewrite Ed. reflexivity.
Qed.

(** ** The second verifier: tasks 1 and 4 *)



(** X12.  On the run, task 1 of the second verifier names air quality, whose
    February standard deviation is the largest, and task 4 names
    temperature, the only variable with a coefficient of determination
    above 0.5 over January to March. *)
Theorem second_verifier_tasks_1_and_4 (s0 : Legacy.aug_state) :
  let d := generate (np := numpy_legacy) s0 in
  verify_task_1 (joined d) = AQI /\
  verify_task_4 (joined d) = inr Temperature /\
  (forall v, v <> Temperature ->
     exists slope r,
       linregress (day_index (jan_mar d)) (map (col v) (jan_mar d))
       = Some (slope, r) /\ r * r < 0.5).
Proof.
  intro d. subst d. rewrite (generate_seeded s0).
  split; [vm_compute; reflexivity|]. split; [vm_compute; reflexivity|].
  intros v Hv.
  destruct v; try congruence;
    match goal with
    | |- context [@linregress ?n ?x ?y] =>
        let r := eval vm_compute in (@linregress n x y) in
        match r with
        | Some (?s, ?c) =>
            exists s, c; split; [vm_compute; reflexivity | reflexivity]
        end
    end.
Qed.

(** ** The fourth status line of the run *)

(** X13.  On the run, the temperature rises by more than 10 degrees from the
    January mean to the March mean, but the CO2 mean falls by more than
    6 ppm: the test [abs(co2_change) < 5] fails, and the T4/T6 line of
    [verify_tasks] is FAIL. *)
Theorem co2_change_fails_t4 (s0 : Legacy.aug_state) :
  let d := generate (np := numpy_legacy) s0 in
  let temp_increase :=
    float_sub (mean (mar (temperature d))) (mean (jan (temperature d))) in
  let co2_change := float_sub (mean (mar (co2 d))) (mean (jan (co2 d))) in
  float_gt temp_increase (Some 10) = true /\
  float_lt co2_change (Some (-6)) = true /\
  float_lt (float_abs co2_change) (Some 5) = false /\
  nth_error (fst (verify_tasks (persist d))) 3
    = Some (t4_check temp_increase co2_change) /\
  t4_check temp_increase co2_change = FAIL.
Proof.
  intros d ti cc. subst d ti cc.
  rewrite (generate_seeded s0), verify_tasks_seeded.
  split_all; vm_compute; reflexivity.
Qed.

(** ** The run through the text of the files *)

(** X14.  On the run, the verifier prints the same five status lines on the
    files as text, whether the floats are written with 2 or with 15
    decimals. *)
Theorem rounded_files_same_report (s0 : Legacy.aug_state) :
  let d := generate (np := numpy_legacy) s0 in
  Forall (fun decimals =>
            verify_tasks (load_text (persist_text decimals d))
            = verify_tasks (persist d))
         [2; 15]%nat.
Proof.
  intro d. subst d. rewrite (generate_seeded s0), verify_tasks_seeded.
  repeat (apply Forall_cons; [vm_compute; reflexivity|]). apply Forall_nil.
Qed.
